(** * Invocation lifecycle of the serverless agent: execution-span tracking

    Shallow embedding of [pkg/serverless/invocationlifecycle/trace.go] and
    [pkg/serverless/invocationlifecycle/lifecycle.go].

    Go strings are byte sequences: they are modelled as [string], one [ascii]
    per byte.  Unsigned and signed machine integers are modelled as [Z] with
    the wrap-around of every conversion and operation written out.  The
    package-level variables are fields of one explicit [State] record that
    every function threads through.  [log.Debug] only writes to the logger,
    which is not part of the modelled state. *)

From Stdlib Require Import ZArith String Ascii List Bool Lia.
From stdpp Require Import base option gmap strings.
Import ListNotations.

Local Open Scope string_scope.
Local Open Scope Z_scope.

(** ** Machine integers *)

Definition uint64 (z : Z) : Z := z mod 2 ^ 64.
Definition int64 (z : Z) : Z := (z + 2 ^ 63) mod 2 ^ 64 - 2 ^ 63.
Definition int32 (z : Z) : Z := (z + 2 ^ 31) mod 2 ^ 32 - 2 ^ 31.

Definition byte_val (c : ascii) : Z := Z.of_N (N_of_ascii c).

(** ** Go standard library: [strconv.ParseUint(s, 0, 64)]

    Follows [strconv/atoi.go]: base prefix detection, the digit loop with
    its cutoff and overflow tests, and the underscore check that base 0
    enables.  The result is the pair Go returns: on a syntax error the
    value is 0, on a range error it is the largest 64-bit value. *)
Module strconv.

Inductive NumError : Set := ErrSyntax | ErrRange.

Definition maxUint64 : Z := 2 ^ 64 - 1.

(** [lower(c)] is [c | ('x' - 'X')]. *)
Definition lower (c : Z) : Z := Z.lor c 32.

Definition is_prefix_letter (c : ascii) (l : ascii) : bool :=
  lower (byte_val c) =? byte_val l.

(** Base 0: a leading "0" selects base 2, 8 or 16 by the next letter when
    at least three bytes are present, and base 8 otherwise. *)
Definition detect_base (s : string) : Z * string :=
  match s with
  | String "0" r =>
      match r with
      | String c r' =>
          if (3 <=? Z.of_nat (String.length s)) && is_prefix_letter c "b" then (2, r')
          else if (3 <=? Z.of_nat (String.length s)) && is_prefix_letter c "o" then (8, r')
          else if (3 <=? Z.of_nat (String.length s)) && is_prefix_letter c "x" then (16, r')
          else (8, r)
      | EmptyString => (8, r)
      end
  | _ => (10, s)
  end.

(** Value of one byte as a digit, [None] where Go reports a syntax error. *)
Definition digit_val (c : Z) : option Z :=
  if (48 <=? c) && (c <=? 57) then Some (c - 48)
  else if (97 <=? lower c) && (lower c <=? 122) then Some (lower c - 97 + 10)
  else None.

(** The digit loop.  [inl] is an early return, [inr] the accumulated
    number and whether an underscore was skipped. *)
Fixpoint digits (base : Z) (s : string) (n : Z) (underscores : bool)
  : (Z * NumError) + (Z * bool) :=
  match s with
  | EmptyString => inr (n, underscores)
  | String c r =>
      if byte_val c =? 95 then digits base r n true
      else
        match digit_val (byte_val c) with
        | None => inl (0, ErrSyntax)
        | Some d =>
            if base <=? d then inl (0, ErrSyntax)
            else if maxUint64 / base + 1 <=? n then inl (maxUint64, ErrRange)
            else
              let n' := uint64 (n * base) in
              let n1 := uint64 (n' + d) in
              if (n1 <? n') || (maxUint64 <? n1) then inl (maxUint64, ErrRange)
              else digits base r n1 underscores
        end
  end.

Inductive Saw : Set := SawStart | SawDigit | SawUnderscore | SawOther.

Fixpoint underscore_scan (hex : bool) (saw : Saw) (s : string) : bool :=
  match s with
  | EmptyString => match saw with SawUnderscore => false | _ => true end
  | String c r =>
      let b := byte_val c in
      if ((48 <=? b) && (b <=? 57))
         || (hex && (97 <=? lower b) && (lower b <=? 102))
      then underscore_scan hex SawDigit r
      else if b =? 95 then
        match saw with
        | SawDigit => underscore_scan hex SawUnderscore r
        | _ => false
        end
      else
        match saw with
        | SawUnderscore => false
        | _ => underscore_scan hex SawOther r
        end
  end.

Definition underscoreOK (s : string) : bool :=
  let s :=
    match s with
    | String c r => if (byte_val c =? 45) || (byte_val c =? 43) then r else s
    | EmptyString => s
    end in
  match s with
  | String "0" (String c r) =>
      if is_prefix_letter c "b" || is_prefix_letter c "o" || is_prefix_letter c "x"
      then underscore_scan (is_prefix_letter c "x") SawDigit r
      else underscore_scan false SawStart s
  | _ => underscore_scan false SawStart s
  end.

Definition ParseUint (s0 : string) : Z * option NumError :=
  match s0 with
  | EmptyString => (0, Some ErrSyntax)
  | _ =>
      let '(base, s) := detect_base s0 in
      match digits base s 0 false with
      | inl (v, e) => (v, Some e)
      | inr (n, underscores) =>
          if underscores && negb (underscoreOK s0) then (0, Some ErrSyntax)
          else (n, None)
      end
  end.

End strconv.

(** ** Go standard library: [unicode/utf8] *)
Module utf8.

Definition RuneError : Z := 65533.

Definition cont (lo hi : Z) (c : ascii) : bool :=
  (lo <=? byte_val c) && (byte_val c <=? hi).

Definition low6 (c : ascii) : Z := Z.land (byte_val c) 63.

(** [DecodeRune]: the first rune of [s] and its width in bytes; an
    invalid or truncated encoding is [(RuneError, 1)]. *)
Definition DecodeRune (s : string) : Z * nat :=
  match s with
  | EmptyString => (RuneError, 0%nat)
  | String c0 r =>
      let b0 := byte_val c0 in
      if b0 <? 128 then (b0, 1%nat)
      else if (194 <=? b0) && (b0 <=? 223) then
        match r with
        | String c1 _ =>
            if cont 128 191 c1
            then (Z.lor (Z.shiftl (Z.land b0 31) 6) (low6 c1), 2%nat)
            else (RuneError, 1%nat)
        | _ => (RuneError, 1%nat)
        end
      else if (224 <=? b0) && (b0 <=? 239) then
        match r with
        | String c1 (String c2 _) =>
            let lo := if b0 =? 224 then 160 else 128 in
            let hi := if b0 =? 237 then 159 else 191 in
            if cont lo hi c1 && cont 128 191 c2
            then (Z.lor (Z.shiftl (Z.land b0 15) 12)
                    (Z.lor (Z.shiftl (low6 c1) 6) (low6 c2)), 3%nat)
            else (RuneError, 1%nat)
        | _ => (RuneError, 1%nat)
        end
      else if (240 <=? b0) && (b0 <=? 244) then
        match r with
        | String c1 (String c2 (String c3 _)) =>
            let lo := if b0 =? 240 then 144 else 128 in
            let hi := if b0 =? 244 then 143 else 191 in
            if cont lo hi c1 && cont 128 191 c2 && cont 128 191 c3
            then (Z.lor (Z.shiftl (Z.land b0 7) 18)
                    (Z.lor (Z.shiftl (low6 c1) 12)
                       (Z.lor (Z.shiftl (low6 c2) 6) (low6 c3))), 4%nat)
            else (RuneError, 1%nat)
        | _ => (RuneError, 1%nat)
        end
      else (RuneError, 1%nat)
  end.

Definition byte_of (z : Z) : ascii := ascii_of_N (Z.to_N z).

(** [EncodeRune]: surrogates and values past U+10FFFF become U+FFFD. *)
Definition EncodeRune (r : Z) : string :=
  if (0 <=? r) && (r <=? 127) then String (byte_of r) ""
  else if (0 <=? r) && (r <=? 2047) then
    String (byte_of (Z.lor 192 (Z.shiftr r 6)))
      (String (byte_of (Z.lor 128 (Z.land r 63))) "")
  else if (r <? 0) || (1114111 <? r) || ((55296 <=? r) && (r <=? 57343)) then
    String (byte_of 239) (String (byte_of 191) (String (byte_of 189) ""))
  else if r <=? 65535 then
    String (byte_of (Z.lor 224 (Z.shiftr r 12)))
      (String (byte_of (Z.lor 128 (Z.land (Z.shiftr r 6) 63)))
         (String (byte_of (Z.lor 128 (Z.land r 63))) ""))
  else
    String (byte_of (Z.lor 240 (Z.shiftr r 18)))
      (String (byte_of (Z.lor 128 (Z.land (Z.shiftr r 12) 63)))
         (String (byte_of (Z.lor 128 (Z.land (Z.shiftr r 6) 63)))
            (String (byte_of (Z.lor 128 (Z.land r 63))) ""))).

End utf8.

(** ** Go standard library: [FindString] for the pattern of [convertRawPayload]

    The pattern is an opening brace, then a starred non-capturing group
    whose alternatives are the empty pattern and a captured greedy run of
    any character, then a closing brace.  [regexp] returns the leftmost
    match and, among the matches that start there, the one its preference
    order reaches first.  A match of this pattern starts at an opening
    brace and ends at a closing brace with no line feed in between (the dot
    does not match a line feed and nothing else in the pattern consumes
    input).  The empty alternative is tried first, so an opening brace
    directly followed by a closing brace matches those two bytes; otherwise
    the greedy run goes to the last closing brace of the line.  No match
    gives the empty string.

    Go releases before 1.17 compiled a star over a body that can match the
    empty string so that the greedy run won in that first case too;
    [FindString_greedy] is that reading.  [convertRawPayload] decodes the
    same payload under both. *)
Module regexp.

(** Longest prefix of [s] that ends in a closing brace and has no line
    feed before it. *)
Fixpoint dot_star_close (s : string) : option string :=
  match s with
  | EmptyString => None
  | String c r =>
      if byte_val c =? 10 then None
      else
        match dot_star_close r with
        | Some p => Some (String c p)
        | None => if byte_val c =? 125 then Some (String c "") else None
        end
  end.

Definition match_at (s : string) : option string :=
  match s with
  | String c r =>
      if byte_val c =? 123 then
        match r with
        | String c1 _ =>
            if byte_val c1 =? 125 then Some (String c (String c1 ""))
            else option_map (String c) (dot_star_close r)
        | EmptyString => None
        end
      else None
  | EmptyString => None
  end.

Fixpoint FindString (s : string) : string :=
  match s with
  | EmptyString => ""
  | String _ r =>
      match match_at s with
      | Some m => m
      | None => FindString r
      end
  end.

Definition match_at_greedy (s : string) : option string :=
  match s with
  | String c r =>
      if byte_val c =? 123 then option_map (String c) (dot_star_close r) else None
  | EmptyString => None
  end.

Fixpoint FindString_greedy (s : string) : string :=
  match s with
  | EmptyString => ""
  | String _ r =>
      match match_at_greedy s with
      | Some m => m
      | None => FindString_greedy r
      end
  end.

End regexp.

(** Strings with a double quote inside are built from [quoted]. *)
Definition dquote : string := String (ascii_of_N 34) "".
Definition quoted (s : string) : string := (dquote ++ s ++ dquote)%string.

Definition scenario_payload : string :=
  ("noise{" ++ quoted "headers" ++ ":{" ++ quoted "x-datadog-trace-id" ++ ":"
     ++ quoted "42" ++ "}}tail")%string.

(** ** Go standard library: [encoding/json]

    [Unmarshal] first checks that the whole input is one valid JSON text
    and decodes nothing if it is not.  [parse] is that check together with
    the reading of the text into a tree: strings are unquoted the way the
    decoder does it (escapes resolved, invalid UTF-8 replaced by U+FFFD),
    and nesting deeper than 10000 is rejected. *)
Module json.

#[local] Set Warnings "-register-all".

Inductive value : Type :=
| Null
| Bool (b : bool)
| Number
| Str (s : string)
| Array (l : list value)
| Object (l : list (string * value)).

Inductive token : Type :=
| TLBrace | TRBrace | TLBrack | TRBrack | TColon | TComma
| TString (s : string) | TNumber | TTrue | TFalse | TNull.

Definition isSpace (c : ascii) : bool :=
  let b := byte_val c in (b =? 32) || (b =? 9) || (b =? 13) || (b =? 10).

Definition isDigit (c : ascii) : bool :=
  (48 <=? byte_val c) && (byte_val c <=? 57).

Definition hexval (c : ascii) : option Z :=
  let b := byte_val c in
  if (48 <=? b) && (b <=? 57) then Some (b - 48)
  else if (97 <=? b) && (b <=? 102) then Some (b - 97 + 10)
  else if (65 <=? b) && (b <=? 70) then Some (b - 65 + 10)
  else None.

(** The four hex digits after a backslash-u. *)
Definition getu4 (h1 h2 h3 h4 : ascii) : option Z :=
  match hexval h1, hexval h2, hexval h3, hexval h4 with
  | Some a, Some b, Some c, Some d => Some (((a * 16 + b) * 16 + c) * 16 + d)
  | _, _, _, _ => None
  end.

Definition IsSurrogate (r : Z) : bool := (55296 <=? r) && (r <? 57344).

(** [utf16.DecodeRune]: a high surrogate followed by a low one. *)
Definition utf16_DecodeRune (r1 r2 : Z) : Z :=
  if (55296 <=? r1) && (r1 <? 56320) && (56320 <=? r2) && (r2 <? 57344)
  then Z.lor (Z.shiftl (r1 - 55296) 10) (r2 - 56320) + 65536
  else utf8.RuneError.

Definition simple_escape (c : ascii) : option ascii :=
  let b := byte_val c in
  if (b =? 34) || (b =? 92) || (b =? 47) then Some c
  else if b =? 98 then Some (ascii_of_N 8)
  else if b =? 102 then Some (ascii_of_N 12)
  else if b =? 110 then Some (ascii_of_N 10)
  else if b =? 114 then Some (ascii_of_N 13)
  else if b =? 116 then Some (ascii_of_N 9)
  else None.

Definition prepend (p : string) (r : option (string * string)) : option (string * string) :=
  match r with
  | Some (s, rest) => Some ((p ++ s)%string, rest)
  | None => None
  end.

(** [unquote s] reads a string literal whose opening quote has been
    consumed: the decoded bytes and the input after the closing quote. *)
Fixpoint unquote (s : string) : option (string * string) :=
  match s with
  | EmptyString => None
  | String c r =>
      let b := byte_val c in
      if b =? 34 then Some ("", r)
      else if b =? 92 then
        match r with
        | String e r1 =>
            if byte_val e =? 117 then
              match r1 with
              | String h1 (String h2 (String h3 (String h4 r2))) =>
                  match getu4 h1 h2 h3 h4 with
                  | None => None
                  | Some rr =>
                      if IsSurrogate rr then
                        match r2 with
                        | String e1 (String e2
                            (String l1 (String l2 (String l3 (String l4 r3))))) =>
                            match
                              (if (byte_val e1 =? 92) && (byte_val e2 =? 117)
                               then getu4 l1 l2 l3 l4 else None)
                            with
                            | Some rr1 =>
                                if utf16_DecodeRune rr rr1 =? utf8.RuneError
                                then prepend (utf8.EncodeRune utf8.RuneError) (unquote r2)
                                else prepend (utf8.EncodeRune (utf16_DecodeRune rr rr1))
                                       (unquote r3)
                            | None =>
                                prepend (utf8.EncodeRune utf8.RuneError) (unquote r2)
                            end
                        | _ => prepend (utf8.EncodeRune utf8.RuneError) (unquote r2)
                        end
                      else prepend (utf8.EncodeRune rr) (unquote r2)
                  end
              | _ => None
              end
            else
              match simple_escape e with
              | Some ch => prepend (String ch "") (unquote r1)
              | None => None
              end
        | EmptyString => None
        end
      else if b <? 32 then None
      else if b <? 128 then prepend (String c "") (unquote r)
      else
        match snd (utf8.DecodeRune s), r with
        | 2%nat, String c1 r2 =>
            prepend (String c (String c1 "")) (unquote r2)
        | 3%nat, String c1 (String c2 r3) =>
            prepend (String c (String c1 (String c2 ""))) (unquote r3)
        | 4%nat, String c1 (String c2 (String c3 r4)) =>
            prepend (String c (String c1 (String c2 (String c3 "")))) (unquote r4)
        | _, _ => prepend (utf8.EncodeRune utf8.RuneError) (unquote r)
        end
  end.

Fixpoint skip_digits (s : string) : string :=
  match s with
  | String c r => if isDigit c then skip_digits r else s
  | EmptyString => s
  end.

(** At least one digit, then as many as follow. *)
Definition digits1 (s : string) : option string :=
  match s with
  | String c r => if isDigit c then Some (skip_digits r) else None
  | EmptyString => None
  end.

Definition lex_exponent (s : string) : option string :=
  match s with
  | String c r =>
      if (byte_val c =? 101) || (byte_val c =? 69) then
        match r with
        | String sg r' =>
            if (byte_val sg =? 43) || (byte_val sg =? 45) then digits1 r' else digits1 r
        | EmptyString => None
        end
      else Some s
  | EmptyString => Some s
  end.

Definition lex_fraction (s : string) : option string :=
  match s with
  | String c r =>
      if byte_val c =? 46 then
        match digits1 r with
        | Some r' => lex_exponent r'
        | None => None
        end
      else lex_exponent s
  | EmptyString => Some s
  end.

(** A number literal: the input after it. *)
Definition lex_number (s : string) : option string :=
  let s1 :=
    match s with
    | String c r => if byte_val c =? 45 then r else s
    | EmptyString => s
    end in
  match s1 with
  | String c r =>
      if byte_val c =? 48 then lex_fraction r
      else if isDigit c then lex_fraction (skip_digits r)
      else None
  | EmptyString => None
  end.

Definition push (t : token) (r : option (list token)) : option (list token) :=
  option_map (cons t) r.

Fixpoint lex (fuel : nat) (s : string) : option (list token) :=
  match s with
  | EmptyString => Some []
  | String c r =>
      match fuel with
      | O => None
      | S fuel' =>
          let b := byte_val c in
          if isSpace c then lex fuel' r
          else if b =? 123 then push TLBrace (lex fuel' r)
          else if b =? 125 then push TRBrace (lex fuel' r)
          else if b =? 91 then push TLBrack (lex fuel' r)
          else if b =? 93 then push TRBrack (lex fuel' r)
          else if b =? 58 then push TColon (lex fuel' r)
          else if b =? 44 then push TComma (lex fuel' r)
          else if b =? 34 then
            match unquote r with
            | Some (str, r') => push (TString str) (lex fuel' r')
            | None => None
            end
          else if (b =? 45) || isDigit c then
            match lex_number s with
            | Some r' => push TNumber (lex fuel' r')
            | None => None
            end
          else
            match s with
            | String "t" (String "r" (String "u" (String "e" r'))) =>
                push TTrue (lex fuel' r')
            | String "f" (String "a" (String "l" (String "s" (String "e" r')))) =>
                push TFalse (lex fuel' r')
            | String "n" (String "u" (String "l" (String "l" r'))) =>
                push TNull (lex fuel' r')
            | _ => None
            end
      end
  end.

Definition maxNestingDepth : Z := 10000.

Fixpoint parse_value (fuel : nat) (depth : Z) (ts : list token)
  : option (value * list token) :=
  match fuel with
  | O => None
  | S f =>
      match ts with
      | TNull :: r => Some (Null, r)
      | TTrue :: r => Some (Bool true, r)
      | TFalse :: r => Some (Bool false, r)
      | TNumber :: r => Some (Number, r)
      | TString s :: r => Some (Str s, r)
      | TLBrack :: r =>
          if depth <? maxNestingDepth then
            match r with
            | TRBrack :: r' => Some (Array [], r')
            | _ => parse_elems f (depth + 1) r []
            end
          else None
      | TLBrace :: r =>
          if depth <? maxNestingDepth then
            match r with
            | TRBrace :: r' => Some (Object [], r')
            | _ => parse_members f (depth + 1) r []
            end
          else None
      | _ => None
      end
  end
with parse_elems (fuel : nat) (depth : Z) (ts : list token) (acc : list value)
  : option (value * list token) :=
  match fuel with
  | O => None
  | S f =>
      match parse_value f depth ts with
      | Some (v, TComma :: r) => parse_elems f depth r (v :: acc)
      | Some (v, TRBrack :: r) => Some (Array (rev (v :: acc)), r)
      | _ => None
      end
  end
with parse_members (fuel : nat) (depth : Z) (ts : list token)
       (acc : list (string * value)) : option (value * list token) :=
  match fuel with
  | O => None
  | S f =>
      match ts with
      | TString k :: TColon :: r =>
          match parse_value f depth r with
          | Some (v, TComma :: r') => parse_members f depth r' ((k, v) :: acc)
          | Some (v, TRBrace :: r') => Some (Object (rev ((k, v) :: acc)), r')
          | _ => None
          end
      | _ => None
      end
  end.

(** The whole input is one JSON text, with nothing but white space
    around it. *)
Definition parse (data : string) : option value :=
  match lex (S (String.length data)) data with
  | Some ts =>
      match parse_value (2 * List.length ts + 2) 0 ts with
      | Some (v, []) => Some v
      | _ => None
      end
  | None => None
  end.

(** [equalFoldRight s t]: [s] is an ASCII field name; [t] matches it up
    to ASCII letter case, with U+017F for an [s] and U+212A for a [k]. *)
Fixpoint equalFoldRight (s t : string) : bool :=
  match s with
  | EmptyString => match t with EmptyString => true | _ => false end
  | String sb s' =>
      match t with
      | EmptyString => false
      | String tb t' =>
          if byte_val tb <? 128 then
            if byte_val sb =? byte_val tb then equalFoldRight s' t'
            else
              let sbUpper := Z.land (byte_val sb) 223 in
              if (65 <=? sbUpper) && (sbUpper <=? 90)
                 && (sbUpper =? Z.land (byte_val tb) 223)
              then equalFoldRight s' t'
              else false
          else
            let '(tr, size) := utf8.DecodeRune t in
            let b := byte_val sb in
            if (((b =? 115) || (b =? 83)) && (tr =? 383))
               || (((b =? 107) || (b =? 75)) && (tr =? 8490))
            then equalFoldRight s' (String.substring size (String.length t) t)
            else false
      end
  end.

End json.

(** ** Collaborating packages *)

(** [time.Time] as seconds since the Unix epoch and nanoseconds within the
    second.  [UnixNano] is computed in [int64], as in Go; [nanos] is the
    same instant as a mathematical integer. *)
Module time.

Record Time : Type := { unixSec : Z; nsec : Z }.

Definition nanos (t : Time) : Z := unixSec t * 1000000000 + nsec t.

Definition UnixNano (t : Time) : Z := int64 (unixSec t * 1000000000 + nsec t).

Definition Unix (sec nsec : Z) : Time := {| unixSec := sec; nsec := nsec |}.

End time.

(** The wire types of [pkg/trace/pb], with the fields this package fills;
    every other field keeps its zero value. *)
Module pb.

Record Span : Type := {
  Service : string;
  Name : string;
  Resource : string;
  Type_ : string;
  TraceID : Z;
  SpanID : Z;
  ParentID : Z;
  Start : Z;
  Duration : Z;
  Error : Z;
  Meta : gmap string string
}.

Definition set_TraceID (v : Z) (s : Span) : Span :=
  {| Service := Service s; Name := Name s; Resource := Resource s;
     Type_ := Type_ s; TraceID := v; SpanID := SpanID s;
     ParentID := ParentID s; Start := Start s; Duration := Duration s;
     Error := Error s; Meta := Meta s |}.

Definition set_ParentID (v : Z) (s : Span) : Span :=
  {| Service := Service s; Name := Name s; Resource := Resource s;
     Type_ := Type_ s; TraceID := TraceID s; SpanID := SpanID s;
     ParentID := v; Start := Start s; Duration := Duration s;
     Error := Error s; Meta := Meta s |}.

Definition set_Error (v : Z) (s : Span) : Span :=
  {| Service := Service s; Name := Name s; Resource := Resource s;
     Type_ := Type_ s; TraceID := TraceID s; SpanID := SpanID s;
     ParentID := ParentID s; Start := Start s; Duration := Duration s;
     Error := v; Meta := Meta s |}.

Definition set_Meta (m : gmap string string) (s : Span) : Span :=
  {| Service := Service s; Name := Name s; Resource := Resource s;
     Type_ := Type_ s; TraceID := TraceID s; SpanID := SpanID s;
     ParentID := ParentID s; Start := Start s; Duration := Duration s;
     Error := Error s; Meta := m |}.

Record TraceChunk : Type := { Priority : Z; Spans : list Span }.

Definition set_Priority (v : Z) (c : TraceChunk) : TraceChunk :=
  {| Priority := v; Spans := Spans c |}.

Record TracerPayload : Type := { Chunks : list TraceChunk }.

End pb.

(** [api.Payload]; its [Source] is a fresh statistics handle and carries
    nothing of the invocation. *)
Module api.

Record Payload : Type := { TracerPayload : pb.TracerPayload }.

End api.

(** [rand.Random]: a source of 64-bit values.  Whatever the generator, its
    behaviour is the sequence of values it hands out, so the source is that
    sequence and the number of values drawn so far. *)
Module rand.

Record Source : Type := { outputs : nat -> Z; drawn : nat }.

Definition Uint64 (r : Source) : Z * Source :=
  (uint64 (outputs r (drawn r)),
   {| outputs := outputs r; drawn := S (drawn r) |}).

End rand.

(** ** Package [invocationlifecycle]: data *)

Definition functionNameEnvVar : string := "AWS_LAMBDA_FUNCTION_NAME".

(** The header names [TraceIDHeader], [ParentIDHeader] and
    [SamplingPriorityHeader] are constants of the package declared in
    another of its files; the development is parametric in them. *)
Class HeaderNames : Type := {
  TraceIDHeader : string;
  ParentIDHeader : string;
  SamplingPriorityHeader : string
}.

Record executionStartInfo : Type := {
  startTime : time.Time;
  traceID : Z;
  spanID : Z;
  parentID : Z;
  samplingPriority : option Z;
  requestPayload : string
}.

Record invocationPayload : Type := { Headers : option (gmap string string) }.

(** Direct-invocation headers, as [startExecutionSpan] reads them. *)
Module LambdaInvokeEventHeaders.
Record t : Type := { TraceID : string; ParentID : string }.
End LambdaInvokeEventHeaders.

(** The variable [inferredSpan], as [startExecutionSpan] reads and writes
    it: a span and an optional sampling priority. *)
Record InferredSpan : Type := {
  Span : pb.Span;
  SamplingPriority : option Z
}.

(** Everything the two functions of [trace.go] read or write outside their
    arguments: the package variables, the random source, the process
    environment and the agent configuration. *)
Record State : Type := {
  currentExecutionInfo : executionStartInfo;
  InferredSpansEnabled : bool;
  inferredSpan : InferredSpan;
  Random : rand.Source;
  Getenv : string -> string;
  GetBool : string -> bool
}.

Definition set_startTime (v : time.Time) (i : executionStartInfo) :=
  {| startTime := v; traceID := traceID i; spanID := spanID i;
     parentID := parentID i; samplingPriority := samplingPriority i;
     requestPayload := requestPayload i |}.
Definition set_traceID (v : Z) (i : executionStartInfo) :=
  {| startTime := startTime i; traceID := v; spanID := spanID i;
     parentID := parentID i; samplingPriority := samplingPriority i;
     requestPayload := requestPayload i |}.
Definition set_spanID (v : Z) (i : executionStartInfo) :=
  {| startTime := startTime i; traceID := traceID i; spanID := v;
     parentID := parentID i; samplingPriority := samplingPriority i;
     requestPayload := requestPayload i |}.
Definition set_parentID (v : Z) (i : executionStartInfo) :=
  {| startTime := startTime i; traceID := traceID i; spanID := spanID i;
     parentID := v; samplingPriority := samplingPriority i;
     requestPayload := requestPayload i |}.
Definition set_samplingPriority (v : option Z) (i : executionStartInfo) :=
  {| startTime := startTime i; traceID := traceID i; spanID := spanID i;
     parentID := parentID i; samplingPriority := v;
     requestPayload := requestPayload i |}.
Definition set_requestPayload (v : string) (i : executionStartInfo) :=
  {| startTime := startTime i; traceID := traceID i; spanID := spanID i;
     parentID := parentID i; samplingPriority := samplingPriority i;
     requestPayload := v |}.

(** Assignment to a field of [currentExecutionInfo]. *)
Definition info (f : executionStartInfo -> executionStartInfo) (st : State) : State :=
  {| currentExecutionInfo := f (currentExecutionInfo st);
     InferredSpansEnabled := InferredSpansEnabled st;
     inferredSpan := inferredSpan st;
     Random := Random st; Getenv := Getenv st; GetBool := GetBool st |}.

(** Assignment to a field of [inferredSpan]. *)
Definition inferred (f : InferredSpan -> InferredSpan) (st : State) : State :=
  {| currentExecutionInfo := currentExecutionInfo st;
     InferredSpansEnabled := InferredSpansEnabled st;
     inferredSpan := f (inferredSpan st);
     Random := Random st; Getenv := Getenv st; GetBool := GetBool st |}.

Definition set_Span (f : pb.Span -> pb.Span) (i : InferredSpan) : InferredSpan :=
  {| Span := f (Span i); SamplingPriority := SamplingPriority i |}.
Definition set_SamplingPriority (v : option Z) (i : InferredSpan) : InferredSpan :=
  {| Span := Span i; SamplingPriority := v |}.

(** [rand.Random.Uint64()]. *)
Definition Random_Uint64 (st : State) : Z * State :=
  let '(v, r) := rand.Uint64 (Random st) in
  (v, {| currentExecutionInfo := currentExecutionInfo st;
         InferredSpansEnabled := InferredSpansEnabled st;
         inferredSpan := inferredSpan st;
         Random := r; Getenv := Getenv st; GetBool := GetBool st |}).

(** Indexing a Go map: a missing key reads as the empty string. *)
Definition index (m : gmap string string) (k : string) : string :=
  default "" (m !! k).

(** ** [json.Unmarshal] into an [invocationPayload]

    The only field is [Headers], of type map from string to string, named
    "headers".  A value that does not fit its target is reported after the
    rest has been decoded: a map element that is not a string is stored as
    the empty string, a "headers" member that is neither an object nor
    null leaves the field as it is, and null sets the field to nil.  A
    second member for the same field decodes into the map already there. *)

Definition decode_elem (v : json.value) : string :=
  match v with
  | json.Str s => s
  | _ => ""
  end.

Definition decode_map (members : list (string * json.value))
    (m : gmap string string) : gmap string string :=
  fold_left (fun m kv => <[fst kv := decode_elem (snd kv)]> m) members m.

Definition decode_Headers (v : json.value) (p : invocationPayload) : invocationPayload :=
  match v with
  | json.Null => {| Headers := None |}
  | json.Object members =>
      {| Headers := Some (decode_map members (default ∅ (Headers p))) |}
  | _ => p
  end.

Definition decode_payload (v : json.value) (p : invocationPayload) : invocationPayload :=
  match v with
  | json.Object members =>
      fold_left
        (fun p kv =>
           if json.equalFoldRight "headers" (fst kv)
           then decode_Headers (snd kv) p else p)
        members p
  | _ => p
  end.

Definition Unmarshal (data : string) (p : invocationPayload) : invocationPayload :=
  match json.parse data with
  | Some v => decode_payload v p
  | None => p
  end.

(** ** Package [invocationlifecycle]: [trace.go] *)

Definition convertRawPayload (rawPayload : string) : invocationPayload :=
  let subString := regexp.FindString rawPayload in
  let payload := {| Headers := None |} in
  Unmarshal subString payload.

Section Tracker.

Context `{HeaderNames}.

(** [startExecutionSpan] records information from the start of the
    invocation. *)
Definition startExecutionSpan (startTime : time.Time) (rawPayload : string)
    (invokeEventHeaders : LambdaInvokeEventHeaders.t) (st : State) : State :=
  let st := info (set_startTime startTime) st in
  let '(r, st) := Random_Uint64 st in
  let st := info (set_traceID r) st in
  let '(r, st) := Random_Uint64 st in
  let st := info (set_spanID r) st in
  let st := info (set_parentID 0) st in
  let payload := convertRawPayload rawPayload in
  let st := info (set_requestPayload rawPayload) st in
  let st :=
    if InferredSpansEnabled st then
      let st := info (set_traceID (pb.TraceID (Span (inferredSpan st)))) st in
      info (set_parentID (pb.SpanID (Span (inferredSpan st)))) st
    else st in
  match Headers payload with
  | Some headers =>
      let '(traceID, e1) := strconv.ParseUint (index headers TraceIDHeader) in
      let '(parentID, e2) := strconv.ParseUint (index headers ParentIDHeader) in
      let '(samplingPriority, e3) :=
        strconv.ParseUint (index headers SamplingPriorityHeader) in
      let st :=
        match e1 with
        | None =>
            let st := info (set_traceID traceID) st in
            if InferredSpansEnabled st
            then inferred (set_Span (pb.set_TraceID traceID)) st
            else st
        | Some _ => st
        end in
      let st :=
        match e2 with
        | None =>
            if InferredSpansEnabled st
            then inferred (set_Span (pb.set_ParentID parentID)) st
            else info (set_parentID parentID) st
        | Some _ => st
        end in
      match e3 with
      | None =>
          let st := info (set_samplingPriority (Some samplingPriority)) st in
          if InferredSpansEnabled st
          then inferred (set_SamplingPriority (Some samplingPriority)) st
          else st
      | Some _ => st
      end
  | None =>
      if negb (String.eqb (LambdaInvokeEventHeaders.TraceID invokeEventHeaders) "")
      then
        let '(v1, e1) :=
          strconv.ParseUint (LambdaInvokeEventHeaders.TraceID invokeEventHeaders) in
        let st := info (set_traceID v1) st in
        let '(v2, e2) :=
          strconv.ParseUint (LambdaInvokeEventHeaders.ParentID invokeEventHeaders) in
        let st := info (set_parentID v2) st in
        st
      else st
  end.

End Tracker.

(** The span [endExecutionSpan] builds. *)
Definition executionSpan (requestID : string) (endTime : time.Time) (isError : bool)
    (responsePayload : string) (st : State) : pb.Span :=
  let cur := currentExecutionInfo st in
  let duration := int64 (time.UnixNano endTime - time.UnixNano (startTime cur)) in
  let executionSpan :=
    {| pb.Service := "aws.lambda";
       pb.Name := "aws.lambda";
       pb.Resource := Getenv st functionNameEnvVar;
       pb.Type_ := "serverless";
       pb.TraceID := traceID cur;
       pb.SpanID := spanID cur;
       pb.ParentID := parentID cur;
       pb.Start := time.UnixNano (startTime cur);
       pb.Duration := duration;
       pb.Error := 0;
       pb.Meta := {[ "request_id" := requestID ]} |} in
  let captureLambdaPayloadEnabled := GetBool st "capture_lambda_payload" in
  let executionSpan :=
    if captureLambdaPayloadEnabled then
      let executionSpan :=
        pb.set_Meta (<["function.request" := requestPayload cur]> (pb.Meta executionSpan))
          executionSpan in
      pb.set_Meta (<["function.response" := responsePayload]> (pb.Meta executionSpan))
        executionSpan
    else executionSpan in
  if isError then pb.set_Error 1 executionSpan else executionSpan.

(** The chunk that holds it. *)
Definition traceChunk (requestID : string) (endTime : time.Time) (isError : bool)
    (responsePayload : string) (st : State) : pb.TraceChunk :=
  let traceChunk :=
    {| pb.Priority := 0;
       pb.Spans := [executionSpan requestID endTime isError responsePayload st] |} in
  match samplingPriority (currentExecutionInfo st) with
  | Some priority => pb.set_Priority (int32 priority) traceChunk
  | None => traceChunk
  end.

(** [endExecutionSpan] builds the function execution span and hands it to
    [processTrace].  It reads the state and writes nothing to it; what it
    changes is whatever the callback changes, here a value of type [Sink]. *)
Definition endExecutionSpan {Sink : Type} (processTrace : api.Payload -> Sink -> Sink)
    (requestID : string) (endTime : time.Time) (isError : bool)
    (responsePayload : string) (st : State) (sink : Sink) : Sink :=
  let tracerPayload :=
    {| pb.Chunks := [traceChunk requestID endTime isError responsePayload st] |} in
  processTrace {| api.TracerPayload := tracerPayload |} sink.

(** [TraceID] returns the current trace ID. *)
Definition TraceID (st : State) : Z := traceID (currentExecutionInfo st).

(** [SpanID] returns the current span ID. *)
Definition SpanID (st : State) : Z := spanID (currentExecutionInfo st).

(** ** Package [invocationlifecycle]: [lifecycle.go] *)

(** [strings.ToLower].  Both uses compare the result with an ASCII word, and
    no rune outside ASCII lower-cases to a letter of that word, so the ASCII
    mapping decides the comparison. *)
Module strings.

Definition lower_byte (c : ascii) : ascii :=
  if (65 <=? byte_val c) && (byte_val c <=? 90)
  then ascii_of_N (Z.to_N (byte_val c + 32)) else c.

Fixpoint ToLower (s : string) : string :=
  match s with
  | EmptyString => EmptyString
  | String c r => String (lower_byte c) (ToLower r)
  end.

End strings.

Module serverlessLog.
Module Tags.
Record t : Type := { Tags : list string }.
End Tags.
End serverlessLog.

Module serverlessMetrics.

Inductive EnhancedMetric : Set := InvocationErrors.

Record MetricSample : Type := {
  Metric : EnhancedMetric;
  SampleTags : list string;
  Timestamp : time.Time
}.

(** Modelled from the spec: the function [SendErrorsEnhancedMetric] of the
    serverless metrics package, which [lifecycle.go] calls and whose body
    is not part of the sources covered here.  It emits the invocation-error
    enhanced metric, with the given tags and the given time as timestamp,
    to the metrics demultiplexer; the demultiplexer is the sequence of
    samples it has received. *)
Definition SendErrorsEnhancedMetric (tags : list string) (t : time.Time)
    (demux : list MetricSample) : list MetricSample :=
  demux ++ [ {| Metric := InvocationErrors; SampleTags := tags; Timestamp := t |} ].

End serverlessMetrics.

(** What the host supplies at the two ends of an invocation. *)
Record InvocationStartDetails : Type := {
  StartTime : time.Time;
  InvokeEventRawPayload : string;
  InvokeEventHeaders : LambdaInvokeEventHeaders.t
}.

Record InvocationEndDetails : Type := {
  EndTime : time.Time;
  IsError : bool;
  RequestID : string;
  ResponseRawPayload : string
}.

Section Lifecycle.

Context `{HeaderNames}.

(** [Sink] is what the trace callback acts on, [InferredPkg] the state of
    the inferred-span package and [ExecutionContext] the context record of
    the logs package.  The two functions of the inferred-span package are
    opaque: they act on their own package's state and, for completion, on
    the sink through the callback they are given. *)
Variables Sink InferredPkg ExecutionContext : Type.
Variable CreateInferredSpan :
  string -> ExecutionContext -> InferredPkg -> InferredPkg.
Variable CompleteInferredSpan :
  (api.Payload -> Sink -> Sink) -> time.Time -> bool -> string ->
  InferredPkg -> Sink -> InferredPkg * Sink.

(** [LifecycleProcessor].  Its [Demux] field is a handle on the
    demultiplexer, whose content is the [demux] component of [World]. *)
Record LifecycleProcessor : Type := {
  ExtraTags : serverlessLog.Tags.t;
  ProcessTrace : api.Payload -> Sink -> Sink;
  DetectLambdaLibrary : unit -> bool;
  ExecutionContext_ : ExecutionContext
}.

Record World : Type := {
  pkg : State;
  traceSink : Sink;
  demux : list serverlessMetrics.MetricSample;
  inferredPkg : InferredPkg
}.

Definition on_pkg (f : State -> State) (w : World) : World :=
  {| pkg := f (pkg w); traceSink := traceSink w; demux := demux w;
     inferredPkg := inferredPkg w |}.
Definition on_traceSink (f : Sink -> Sink) (w : World) : World :=
  {| pkg := pkg w; traceSink := f (traceSink w); demux := demux w;
     inferredPkg := inferredPkg w |}.
Definition on_demux
    (f : list serverlessMetrics.MetricSample -> list serverlessMetrics.MetricSample)
    (w : World) : World :=
  {| pkg := pkg w; traceSink := traceSink w; demux := f (demux w);
     inferredPkg := inferredPkg w |}.
Definition on_inferredPkg (f : InferredPkg -> InferredPkg) (w : World) : World :=
  {| pkg := pkg w; traceSink := traceSink w; demux := demux w;
     inferredPkg := f (inferredPkg w) |}.

(** [OnInvokeStart] is the hook triggered when an invocation has started.
    The call in [lifecycle.go] names two arguments of [startExecutionSpan];
    the direct-invocation headers that [trace.go] takes as the third come
    from the start details. *)
Definition OnInvokeStart (lp : LifecycleProcessor)
    (startDetails : InvocationStartDetails) (ctx : ExecutionContext)
    (w : World) : World :=
  let w :=
    if negb (DetectLambdaLibrary lp tt) then
      on_pkg (startExecutionSpan (StartTime startDetails)
                (InvokeEventRawPayload startDetails)
                (InvokeEventHeaders startDetails)) w
    else w in
  if String.eqb (strings.ToLower (Getenv (pkg w) "DD_TRACE_ENABLED")) "true"
     && String.eqb (strings.ToLower (Getenv (pkg w) "DD_TRACE_MANAGED_SERVICES")) "true"
  then
    on_inferredPkg
      (CreateInferredSpan (InvokeEventRawPayload startDetails) (ExecutionContext_ lp)) w
  else w.

(** [OnInvokeEnd] is the hook triggered when an invocation has ended.
    The response payload that [trace.go] takes as the last argument of
    [endExecutionSpan] comes from the end details. *)
Definition OnInvokeEnd (lp : LifecycleProcessor)
    (endDetails : InvocationEndDetails) (w : World) : World :=
  let w :=
    if negb (DetectLambdaLibrary lp tt) then
      on_traceSink
        (endExecutionSpan (ProcessTrace lp) (RequestID endDetails)
           (EndTime endDetails) (IsError endDetails)
           (ResponseRawPayload endDetails) (pkg w)) w
    else w in
  let w :=
    if IsError endDetails then
      on_demux
        (serverlessMetrics.SendErrorsEnhancedMetric
           (serverlessLog.Tags.Tags (ExtraTags lp)) (EndTime endDetails)) w
    else w in
  if String.eqb (strings.ToLower (Getenv (pkg w) "DD_TRACE_ENABLED")) "true"
     && String.eqb (strings.ToLower (Getenv (pkg w) "DD_TRACE_MANAGED_SERVICES")) "true"
  then
    let '(i, s) :=
      CompleteInferredSpan (ProcessTrace lp) (EndTime endDetails)
        (IsError endDetails) (RequestID endDetails) (inferredPkg w) (traceSink w) in
    {| pkg := pkg w; traceSink := s; demux := demux w; inferredPkg := i |}
  else w.

End Lifecycle.

Arguments ExtraTags {Sink ExecutionContext} _.
Arguments ProcessTrace {Sink ExecutionContext} _ _ _.
Arguments DetectLambdaLibrary {Sink ExecutionContext} _ _.
Arguments ExecutionContext_ {Sink ExecutionContext} _.
Arguments pkg {Sink InferredPkg} _.
Arguments traceSink {Sink InferredPkg} _.
Arguments demux {Sink InferredPkg} _.
Arguments inferredPkg {Sink InferredPkg} _.
Arguments OnInvokeStart {_ Sink InferredPkg ExecutionContext} _ _ _ _ _.
Arguments OnInvokeEnd {Sink InferredPkg ExecutionContext} _ _ _ _.

(** ** Concrete inputs *)

(** The header names of Datadog's trace propagation. *)
Definition datadog_headers : HeaderNames :=
  {| TraceIDHeader := "x-datadog-trace-id";
     ParentIDHeader := "x-datadog-parent-id";
     SamplingPriorityHeader := "x-datadog-sampling-priority" |}.

Definition no_headers : LambdaInvokeEventHeaders.t :=
  {| LambdaInvokeEventHeaders.TraceID := "";
     LambdaInvokeEventHeaders.ParentID := "" |}.

Definition zero_span : pb.Span :=
  {| pb.Service := ""; pb.Name := ""; pb.Resource := ""; pb.Type_ := "";
     pb.TraceID := 0; pb.SpanID := 0; pb.ParentID := 0; pb.Start := 0;
     pb.Duration := 0; pb.Error := 0; pb.Meta := ∅ |}.

(** A state left behind by an earlier invocation that resolved sampling
    priority 2; the random source hands out 1000, 1001, 1002, ... *)
Definition used_state : State :=
  {| currentExecutionInfo :=
       {| startTime := time.Unix 1 0; traceID := 5; spanID := 6; parentID := 7;
          samplingPriority := Some 2; requestPayload := "old" |};
     InferredSpansEnabled := false;
     inferredSpan := {| Span := zero_span; SamplingPriority := None |};
     Random := {| rand.outputs := fun n => 1000 + Z.of_nat n; rand.drawn := 0 |};
     Getenv := fun _ => "";
     GetBool := fun _ => false |}.

(** A payload with one embedded header [k], of value [v]. *)
Definition payload_with (k v : string) : string :=
  ("{" ++ quoted "headers" ++ ":{" ++ quoted k ++ ":" ++ quoted v ++ "}}")%string.

(** A payload with a trace-ID header and a parent-ID header. *)
Definition payload_trace_parent (t p : string) : string :=
  ("{" ++ quoted "headers" ++ ":{" ++ quoted "x-datadog-trace-id" ++ ":" ++ quoted t
     ++ "," ++ quoted "x-datadog-parent-id" ++ ":" ++ quoted p ++ "}}")%string.

(** A state with no sampling priority resolved so far. *)
Definition fresh_state : State :=
  info (set_samplingPriority None) used_state.

(** The state [st] with the capture-payload setting switched to [b]. *)
Definition set_capture (b : bool) (st : State) : State :=
  {| currentExecutionInfo := currentExecutionInfo st;
     InferredSpansEnabled := InferredSpansEnabled st;
     inferredSpan := inferredSpan st;
     Random := Random st;
     Getenv := Getenv st;
     GetBool := fun k => if String.eqb k "capture_lambda_payload" then b else GetBool st k |}.

(** A processor whose library detection answers [b], with a sink that
    records the payloads it is handed. *)
Definition recording_processor (b : bool) : LifecycleProcessor (list api.Payload) unit :=
  {| ExtraTags := {| serverlessLog.Tags.Tags := ["functionname:f"] |};
     ProcessTrace := fun p sink => (sink ++ [p])%list;
     DetectLambdaLibrary := fun _ => b;
     ExecutionContext_ := tt |}.

Definition quiet_world : World (list api.Payload) unit :=
  {| pkg := used_state; traceSink := []; demux := []; inferredPkg := tt |}.

Definition failed_end : InvocationEndDetails :=
  {| EndTime := time.Unix 3 0; IsError := true; RequestID := "req";
     ResponseRawPayload := "" |}.

(** The first and the second value the random source hands out from [st]:
    [startExecutionSpan] draws them in this order. *)
Definition first_draw (st : State) : Z := fst (rand.Uint64 (Random st)).
Definition second_draw (st : State) : Z :=
  fst (rand.Uint64 (snd (rand.Uint64 (Random st)))).

(** ** Vocabulary for the further properties *)

(** [has_byte b s]: the byte [b] occurs in [s]. *)
Fixpoint has_byte (b : Z) (s : string) : bool :=
  match s with
  | EmptyString => false
  | String c r => (byte_val c =? b) || has_byte b r
  end.

(** A byte that a JSON string literal holds as itself: printable ASCII
    other than the double quote and the backslash. *)
Definition plain_byte (c : ascii) : bool :=
  (32 <=? byte_val c) && (byte_val c <? 128)
  && negb (byte_val c =? 34) && negb (byte_val c =? 92).

Fixpoint plain (s : string) : bool :=
  match s with
  | EmptyString => true
  | String c r => plain_byte c && plain r
  end.

(** The condition both hooks test before they touch the inferred span. *)
Definition tracing_flags (st : State) : bool :=
  String.eqb (strings.ToLower (Getenv st "DD_TRACE_ENABLED")) "true"
  && String.eqb (strings.ToLower (Getenv st "DD_TRACE_MANAGED_SERVICES")) "true".

Definition is_uint64 (z : Z) : Prop := 0 <= z < 2 ^ 64.

(** A state in inferred-span mode, the inferred span having trace ID 77
    and span ID 88. *)
Definition inferred_state : State :=
  {| currentExecutionInfo := currentExecutionInfo fresh_state;
     InferredSpansEnabled := true;
     inferredSpan :=
       {| Span := pb.set_TraceID 77 (pb.set_ParentID 0
                    {| pb.Service := ""; pb.Name := ""; pb.Resource := "";
                       pb.Type_ := ""; pb.TraceID := 0; pb.SpanID := 88;
                       pb.ParentID := 0; pb.Start := 0; pb.Duration := 0;
                       pb.Error := 0; pb.Meta := ∅ |});
          SamplingPriority := None |};
     Random := Random fresh_state;
     Getenv := Getenv fresh_state;
     GetBool := GetBool fresh_state |}.

Definition direct_headers (t p : string) : LambdaInvokeEventHeaders.t :=
  {| LambdaInvokeEventHeaders.TraceID := t; LambdaInvokeEventHeaders.ParentID := p |}.

(** A payload with the three headers of Datadog's trace propagation. *)
Definition payload_three (t p s : string) : string :=
  ("{" ++ quoted "headers" ++ ":{" ++ quoted "x-datadog-trace-id" ++ ":" ++ quoted t
     ++ "," ++ quoted "x-datadog-parent-id" ++ ":" ++ quoted p
     ++ "," ++ quoted "x-datadog-sampling-priority" ++ ":" ++ quoted s ++ "}}")%string.

Definition start_details (t : time.Time) (raw : string) : InvocationStartDetails :=
  {| StartTime := t; InvokeEventRawPayload := raw; InvokeEventHeaders := no_headers |}.

(** [when e f x]: [f] applied to [x] if the parse reported no error. *)
Definition when {A : Type} (e : option strconv.NumError) (f : A -> A) (x : A) : A :=
  match e with
  | None => f x
  | Some _ => x
  end.


(** A payload whose headers object is empty. *)
Definition payload_empty_headers : string := ("{" ++ quoted "headers" ++ ":{}}")%string.

(** The callbacks of an inferred-span package that does nothing. *)
Definition no_create : string -> unit -> unit -> unit := fun _ _ i => i.
Definition no_complete :
  (api.Payload -> list api.Payload -> list api.Payload) -> time.Time -> bool -> string ->
  unit -> list api.Payload -> unit * list api.Payload :=
  fun _ _ _ _ i s => (i, s).

(** * Properties *)

(** ** The standard-library models on sample inputs *)

Example ParseUint_42 : strconv.ParseUint "42" = (42, None).
Proof. reflexivity. Qed.
Example ParseUint_hex : strconv.ParseUint "0x1F" = (31, None).
Proof. reflexivity. Qed.
Example ParseUint_oct : strconv.ParseUint "017" = (15, None).
Proof. reflexivity. Qed.
Example ParseUint_us : strconv.ParseUint "1_000" = (1000, None).
Proof. reflexivity. Qed.
Example ParseUint_us_bad : strconv.ParseUint "1__000" = (0, Some strconv.ErrSyntax).
Proof. reflexivity. Qed.
Example ParseUint_minus : strconv.ParseUint "-1" = (0, Some strconv.ErrSyntax).
Proof. reflexivity. Qed.
Example ParseUint_max : strconv.ParseUint "18446744073709551615" = (2 ^ 64 - 1, None).
Proof. vm_compute. reflexivity. Qed.
Example ParseUint_over : strconv.ParseUint "18446744073709551616" = (2 ^ 64 - 1, Some strconv.ErrRange).
Proof. vm_compute. reflexivity. Qed.
Example ParseUint_0x : strconv.ParseUint "0x" = (0, Some strconv.ErrSyntax).
Proof. vm_compute. reflexivity. Qed.
Example FindString_scenario :
  regexp.FindString scenario_payload
  = ("{" ++ quoted "headers" ++ ":{" ++ quoted "x-datadog-trace-id" ++ ":"
       ++ quoted "42" ++ "}}")%string.
Proof. reflexivity. Qed.
Example FindString_none : regexp.FindString "no braces here" = "".
Proof. reflexivity. Qed.
Example FindString_empty_obj : regexp.FindString "a{}b}" = "{}".
Proof. reflexivity. Qed.
Example FindString_newline : regexp.FindString ("{a" ++ String (ascii_of_N 10) "{b}c")%string = "{b}".
Proof. reflexivity. Qed.
Example json_parse_scenario :
  json.parse (regexp.FindString scenario_payload)
  = Some (json.Object
            [("headers", json.Object [("x-datadog-trace-id", json.Str "42")])]).
Proof. vm_compute. reflexivity. Qed.
Example json_parse_empty : json.parse "" = None.
Proof. reflexivity. Qed.
Example json_parse_trailing : json.parse "{}x" = None.
Proof. reflexivity. Qed.
Example json_parse_nested :
  json.parse ("{" ++ quoted "a" ++ " : [1, -2.5e+3, true, null, {}] }")%string
  = Some (json.Object
            [("a", json.Array [json.Number; json.Number; json.Bool true;
                               json.Null; json.Object []])]).
Proof. vm_compute. reflexivity. Qed.
Example json_parse_escape :
  json.parse (quoted "aA\n😀\ud800")
  = Some (json.Str ("aA" ++ String (ascii_of_N 10)
                      (String (ascii_of_N 240) (String (ascii_of_N 159)
                         (String (ascii_of_N 152) (String (ascii_of_N 128)
                            (String (ascii_of_N 239) (String (ascii_of_N 191)
                               (String (ascii_of_N 189) "")))))))))%string.
Proof. vm_compute. reflexivity. Qed.
Example equalFold_headers :
  json.equalFoldRight "headers" "HeAdErS" = true
  /\ json.equalFoldRight "headers" "header" = false
  /\ json.equalFoldRight "headers"
       ("header" ++ String (ascii_of_N 197) (String (ascii_of_N 191) ""))%string = true.
Proof. vm_compute. auto. Qed.

Example decode_non_string_elements :
  Headers (convertRawPayload
             ("{" ++ quoted "headers" ++ ":{" ++ quoted "a" ++ ":1," ++ quoted "b" ++ ":"
                ++ quoted "x" ++ "," ++ quoted "c" ++ ":null}}")%string)
  = Some (<["c" := ""]> (<["b" := "x"]> {[ "a" := "" ]})).
Proof. vm_compute. reflexivity. Qed.
Example decode_field_name_folds :
  Headers (convertRawPayload
             ("{" ++ quoted "HEADERS" ++ ":{" ++ quoted "a" ++ ":" ++ quoted "1" ++ "},"
                ++ quoted "headers" ++ ":{" ++ quoted "b" ++ ":" ++ quoted "2" ++ "}}")%string)
  = Some (<["b" := "2"]> {[ "a" := "1" ]}).
Proof. vm_compute. reflexivity. Qed.
Example decode_null_headers :
  Headers (convertRawPayload ("{" ++ quoted "headers" ++ ":null}")%string) = None.
Proof. vm_compute. reflexivity. Qed.
Example decode_empty_headers :
  Headers (convertRawPayload ("{" ++ quoted "headers" ++ ":{}}")%string) = Some ∅.
Proof. vm_compute. reflexivity. Qed.
Example decode_no_object : Headers (convertRawPayload "plain text") = None.
Proof. vm_compute. reflexivity. Qed.

(** A sign is not part of an unsigned number. *)
Lemma ParseUint_minus_sign (s : string) :
  strconv.ParseUint (String "-" s) = (0, Some strconv.ErrSyntax).
Proof. reflexivity. Qed.

Lemma ParseUint_plus_sign (s : string) :
  strconv.ParseUint (String "+" s) = (0, Some strconv.ErrSyntax).
Proof. reflexivity. Qed.

(** ** The two readings of the pattern decode the same payload *)

Lemma byte_val_inj (c d : ascii) : byte_val c = byte_val d -> c = d.
Proof.
  unfold byte_val. intros Hcd. apply N2Z.inj in Hcd.
  rewrite <- (ascii_N_embedding c), <- (ascii_N_embedding d). congruence.
Qed.

(** After an empty object only the end of the text is valid. *)
Lemma parse_after_empty_object (x : string) :
  json.parse (String "{" (String "}" x)) = None
  \/ json.parse (String "{" (String "}" x)) = Some (json.Object []).
Proof.
  unfold json.parse.
  change (json.lex (S (String.length (String "{" (String "}" x))))
            (String "{" (String "}" x)))
    with (json.push json.TLBrace
            (json.push json.TRBrace (json.lex (S (String.length x)) x))).
  destruct (json.lex (S (String.length x)) x) as [ts|]; [|left; reflexivity].
  cbn [json.push option_map].
  remember (2 * List.length (json.TLBrace :: json.TRBrace :: ts) + 2)%nat as fuel eqn:Hf.
  destruct fuel as [|fuel]; [cbn in Hf; lia|].
  change (json.parse_value (S fuel) 0 (json.TLBrace :: json.TRBrace :: ts))
    with (Some (json.Object [], ts)).
  destruct ts; [right | left]; reflexivity.
Qed.

Lemma Unmarshal_after_empty_object (x : string) (p : invocationPayload) :
  Unmarshal (String "{" (String "}" x)) p = p.
Proof.
  unfold Unmarshal.
  destruct (parse_after_empty_object x) as [-> | ->]; reflexivity.
Qed.

Lemma dot_star_close_brace (c : ascii) (r : string) :
  byte_val c = 125 ->
  exists p, regexp.dot_star_close (String c r) = Some (String c p).
Proof.
  intros Hc. cbn. rewrite Hc. cbn.
  destruct (regexp.dot_star_close r) as [p|]; eauto.
Qed.

Lemma convertRawPayload_greedy (rawPayload : string) :
  Unmarshal (regexp.FindString_greedy rawPayload) {| Headers := None |}
  = convertRawPayload rawPayload.
Proof.
  unfold convertRawPayload.
  induction rawPayload as [|c r IH]; [reflexivity|].
  cbn [regexp.FindString regexp.FindString_greedy
       regexp.match_at regexp.match_at_greedy].
  destruct (byte_val c =? 123) eqn:Hc; [|exact IH].
  apply Z.eqb_eq in Hc. change 123 with (byte_val "{") in Hc.
  apply byte_val_inj in Hc. subst c.
  destruct r as [|c1 r1]; [reflexivity|].
  destruct (byte_val c1 =? 125) eqn:Hc1.
  - apply Z.eqb_eq in Hc1.
    destruct (dot_star_close_brace c1 r1 Hc1) as [p ->].
    change 125 with (byte_val "}") in Hc1. apply byte_val_inj in Hc1. subst c1.
    cbn [option_map]. rewrite !Unmarshal_after_empty_object. reflexivity.
  - destruct (regexp.dot_star_close (String c1 r1)); [reflexivity | exact IH].
Qed.

(** ** What [startExecutionSpan] leaves in each field *)

Section TrackerFacts.

Context `{HeaderNames}.

Implicit Types (st : State) (raw : string) (t : time.Time)
  (hdrs : LambdaInvokeEventHeaders.t).

Ltac run_start :=
  unfold startExecutionSpan, Random_Uint64, rand.Uint64; cbn;
  repeat match goal with
    | |- context [match Headers ?p with _ => _ end] => destruct (Headers p); cbn
    | |- context [strconv.ParseUint ?s] =>
        let e := fresh "e" in destruct (strconv.ParseUint s) as [? [e|]]; cbn
    | |- context [if InferredSpansEnabled ?s then _ else _] =>
        destruct (InferredSpansEnabled s); cbn
    | |- context [if negb ?b then _ else _] => destruct b; cbn
    end.

Lemma start_startTime t raw hdrs st :
  startTime (currentExecutionInfo (startExecutionSpan t raw hdrs st)) = t.
Proof. run_start; reflexivity. Qed.

Lemma start_requestPayload t raw hdrs st :
  requestPayload (currentExecutionInfo (startExecutionSpan t raw hdrs st)) = raw.
Proof. run_start; reflexivity. Qed.

Lemma start_spanID t raw hdrs st :
  spanID (currentExecutionInfo (startExecutionSpan t raw hdrs st)) = second_draw st.
Proof. run_start; reflexivity. Qed.

Lemma start_InferredSpansEnabled t raw hdrs st :
  InferredSpansEnabled (startExecutionSpan t raw hdrs st) = InferredSpansEnabled st.
Proof. run_start; reflexivity. Qed.

(** The embedded-header path, field by field. *)
Lemma start_embedded_traceID t raw hdrs st m :
  Headers (convertRawPayload raw) = Some m ->
  traceID (currentExecutionInfo (startExecutionSpan t raw hdrs st)) =
    match strconv.ParseUint (index m TraceIDHeader) with
    | (v, None) => v
    | (_, Some _) =>
        if InferredSpansEnabled st then pb.TraceID (Span (inferredSpan st))
        else first_draw st
    end.
Proof.
  intros Hm. unfold first_draw, startExecutionSpan. rewrite Hm.
  unfold Random_Uint64, rand.Uint64.
  destruct (strconv.ParseUint (index m TraceIDHeader)) as [v1 [e1|]];
  destruct (strconv.ParseUint (index m ParentIDHeader)) as [v2 [e2|]];
  destruct (strconv.ParseUint (index m SamplingPriorityHeader)) as [v3 [e3|]];
  cbn; destruct (InferredSpansEnabled st); reflexivity.
Qed.

Ltac run_embedded Hm m st :=
  unfold startExecutionSpan; rewrite Hm;
  unfold Random_Uint64, rand.Uint64;
  destruct (strconv.ParseUint (index m TraceIDHeader)) as [? [?|]];
  destruct (strconv.ParseUint (index m ParentIDHeader)) as [? [?|]];
  destruct (strconv.ParseUint (index m SamplingPriorityHeader)) as [? [?|]];
  cbn; destruct (InferredSpansEnabled st); reflexivity.

Lemma start_embedded_parentID t raw hdrs st m :
  Headers (convertRawPayload raw) = Some m ->
  parentID (currentExecutionInfo (startExecutionSpan t raw hdrs st)) =
    if InferredSpansEnabled st then pb.SpanID (Span (inferredSpan st))
    else
      match strconv.ParseUint (index m ParentIDHeader) with
      | (p, None) => p
      | (_, Some _) => 0
      end.
Proof. intros Hm. run_embedded Hm m st. Qed.

Lemma start_embedded_samplingPriority t raw hdrs st m :
  Headers (convertRawPayload raw) = Some m ->
  samplingPriority (currentExecutionInfo (startExecutionSpan t raw hdrs st)) =
    match strconv.ParseUint (index m SamplingPriorityHeader) with
    | (v, None) => Some v
    | (_, Some _) => samplingPriority (currentExecutionInfo st)
    end.
Proof. intros Hm. run_embedded Hm m st. Qed.

(** Without embedded headers the sampling priority is not written. *)
Lemma start_plain_samplingPriority t raw hdrs st :
  Headers (convertRawPayload raw) = None ->
  samplingPriority (currentExecutionInfo (startExecutionSpan t raw hdrs st)) =
    samplingPriority (currentExecutionInfo st).
Proof.
  intros Hm. unfold startExecutionSpan. rewrite Hm.
  unfold Random_Uint64, rand.Uint64. cbn.
  destruct (InferredSpansEnabled st); cbn;
    destruct (String.eqb (LambdaInvokeEventHeaders.TraceID hdrs) ""); cbn;
    try reflexivity;
    destruct (strconv.ParseUint (LambdaInvokeEventHeaders.TraceID hdrs));
    destruct (strconv.ParseUint (LambdaInvokeEventHeaders.ParentID hdrs));
    reflexivity.
Qed.

(** The direct-invocation path writes what [ParseUint] returned, error
    or not. *)
Lemma start_direct_ids t raw hdrs st :
  Headers (convertRawPayload raw) = None ->
  LambdaInvokeEventHeaders.TraceID hdrs <> "" ->
  let st' := startExecutionSpan t raw hdrs st in
  traceID (currentExecutionInfo st')
    = fst (strconv.ParseUint (LambdaInvokeEventHeaders.TraceID hdrs))
  /\ parentID (currentExecutionInfo st')
    = fst (strconv.ParseUint (LambdaInvokeEventHeaders.ParentID hdrs)).
Proof.
  intros Hm Hne. cbv zeta. unfold startExecutionSpan. rewrite Hm.
  unfold Random_Uint64, rand.Uint64. cbn.
  apply String.eqb_neq in Hne.
  destruct (InferredSpansEnabled st); cbn; rewrite Hne; cbn;
    destruct (strconv.ParseUint (LambdaInvokeEventHeaders.TraceID hdrs));
    destruct (strconv.ParseUint (LambdaInvokeEventHeaders.ParentID hdrs));
    split; reflexivity.
Qed.

(** Five fields after a start owe nothing to what the slot held before. *)
Lemma start_forgets_previous t raw hdrs st (previous : executionStartInfo) :
  let a := currentExecutionInfo (startExecutionSpan t raw hdrs st) in
  let b :=
    currentExecutionInfo (startExecutionSpan t raw hdrs (info (fun _ => previous) st)) in
  startTime a = startTime b
  /\ traceID a = traceID b
  /\ spanID a = spanID b
  /\ parentID a = parentID b
  /\ requestPayload a = requestPayload b.
Proof.
  cbv zeta. unfold startExecutionSpan, Random_Uint64, rand.Uint64. cbn.
  destruct (Headers (convertRawPayload raw)) as [m|].
  - destruct (strconv.ParseUint (index m TraceIDHeader)) as [? [?|]];
    destruct (strconv.ParseUint (index m ParentIDHeader)) as [? [?|]];
    destruct (strconv.ParseUint (index m SamplingPriorityHeader)) as [? [?|]];
    cbn; destruct (InferredSpansEnabled st); cbn; repeat split; reflexivity.
  - destruct (InferredSpansEnabled st); cbn;
      destruct (String.eqb (LambdaInvokeEventHeaders.TraceID hdrs) ""); cbn;
      try (repeat split; reflexivity);
      destruct (strconv.ParseUint (LambdaInvokeEventHeaders.TraceID hdrs));
      destruct (strconv.ParseUint (LambdaInvokeEventHeaders.ParentID hdrs));
      repeat split; reflexivity.
Qed.

End TrackerFacts.

(** ** Ranges of the machine integers *)

Lemma uint64_range (z : Z) : 0 <= uint64 z < 2 ^ 64.
Proof. unfold uint64. apply Z.mod_pos_bound. lia. Qed.

Lemma int64_small (z : Z) : - 2 ^ 63 <= z < 2 ^ 63 -> int64 z = z.
Proof. intros Hz. unfold int64. rewrite Z.mod_small; lia. Qed.

Lemma int32_small (z : Z) : - 2 ^ 31 <= z < 2 ^ 31 -> int32 z = z.
Proof. intros Hz. unfold int32. rewrite Z.mod_small; lia. Qed.

Lemma digits_range (base : Z) (s : string) :
  forall n u n' u',
    0 <= n < 2 ^ 64 ->
    strconv.digits base s n u = inr (n', u') ->
    0 <= n' < 2 ^ 64.
Proof.
  induction s as [|c r IH]; intros n u n' u' Hn Hd; cbn in Hd.
  - injection Hd as <- _. exact Hn.
  - destruct (byte_val c =? 95); [exact (IH _ _ _ _ Hn Hd)|].
    destruct (strconv.digit_val (byte_val c)) as [d|]; [|discriminate].
    destruct (base <=? d); [discriminate|].
    destruct (strconv.maxUint64 / base + 1 <=? n); [discriminate|].
    destruct (_ || _); [discriminate|].
    exact (IH _ _ _ _ (uint64_range _) Hd).
Qed.

(** A successful [ParseUint] returns an unsigned 64-bit value. *)
Lemma ParseUint_range (s : string) (v : Z) :
  strconv.ParseUint s = (v, None) -> 0 <= v < 2 ^ 64.
Proof.
  unfold strconv.ParseUint. destruct s as [|c r]; [discriminate|].
  destruct (strconv.detect_base (String c r)) as [base s'].
  destruct (strconv.digits base s' 0 false) as [[v' e]|[n u]] eqn:Hd; [discriminate|].
  destruct (u && negb (strconv.underscoreOK (String c r))); [discriminate|].
  intros [= <-]. apply (digits_range base s' 0 false n u); [lia | exact Hd].
Qed.

(** ** What [endExecutionSpan] hands to the sink *)

(** One payload, of one chunk, of one span. *)
Lemma endExecutionSpan_emits {Sink : Type} (processTrace : api.Payload -> Sink -> Sink)
    (requestID : string) (endTime : time.Time) (isError : bool)
    (responsePayload : string) (st : State) (sink : Sink) :
  endExecutionSpan processTrace requestID endTime isError responsePayload st sink
  = processTrace
      {| api.TracerPayload :=
           {| pb.Chunks := [traceChunk requestID endTime isError responsePayload st] |} |}
      sink
  /\ pb.Spans (traceChunk requestID endTime isError responsePayload st)
     = [executionSpan requestID endTime isError responsePayload st].
Proof.
  split; [reflexivity|]. unfold traceChunk.
  destruct (samplingPriority (currentExecutionInfo st)); reflexivity.
Qed.

Lemma executionSpan_ids (requestID : string) (endTime : time.Time) (isError : bool)
    (responsePayload : string) (st : State) :
  let s := executionSpan requestID endTime isError responsePayload st in
  pb.TraceID s = traceID (currentExecutionInfo st)
  /\ pb.SpanID s = spanID (currentExecutionInfo st)
  /\ pb.ParentID s = parentID (currentExecutionInfo st)
  /\ pb.Start s = time.UnixNano (startTime (currentExecutionInfo st))
  /\ pb.Duration s
     = int64 (time.UnixNano endTime - time.UnixNano (startTime (currentExecutionInfo st))).
Proof.
  cbv zeta. unfold executionSpan.
  destruct (GetBool st "capture_lambda_payload"), isError; cbn; auto.
Qed.

Lemma traceChunk_Priority (requestID : string) (endTime : time.Time) (isError : bool)
    (responsePayload : string) (st : State) :
  pb.Priority (traceChunk requestID endTime isError responsePayload st)
  = match samplingPriority (currentExecutionInfo st) with
    | Some priority => int32 priority
    | None => 0
    end.
Proof.
  unfold traceChunk. destruct (samplingPriority (currentExecutionInfo st)); reflexivity.
Qed.

(** ** Claims about [startExecutionSpan] *)

(** C1.  A start does not overwrite every field.  A first invocation whose
    payload carries sampling priority 2 records it; a second one, started
    on a payload and headers that resolve no priority, still holds priority
    2 afterwards and its chunk is sent with it, although the five other
    fields are those of the second invocation. *)
Theorem C1_samplingPriority_survives_start :
  let first :=
    startExecutionSpan (H := datadog_headers) (time.Unix 1 0)
      (payload_with "x-datadog-sampling-priority" "2") no_headers fresh_state in
  let second :=
    startExecutionSpan (H := datadog_headers) (time.Unix 2 0) "" no_headers first in
  samplingPriority (currentExecutionInfo fresh_state) = None
  /\ samplingPriority (currentExecutionInfo first) = Some 2
  /\ Headers (convertRawPayload "") = None
  /\ samplingPriority (currentExecutionInfo second) = Some 2
  /\ pb.Priority (traceChunk "req" (time.Unix 3 0) false "" second) = 2
  /\ startTime (currentExecutionInfo second) = time.Unix 2 0
  /\ traceID (currentExecutionInfo second) = 1002
  /\ spanID (currentExecutionInfo second) = 1003
  /\ parentID (currentExecutionInfo second) = 0
  /\ requestPayload (currentExecutionInfo second) = "".
Proof. cbv zeta. vm_compute. repeat split; reflexivity. Qed.

(** C2.  On the direct-invocation path a parse failure does not leave the
    defaults in place.  With the random trace ID 1000 as default: an
    unparseable trace ID with parent ID 7 gives trace ID 0 and parent ID 7;
    trace ID 5 with an unparseable parent ID gives trace ID 5; a parent ID
    past 64 bits gives the largest 64-bit value as parent ID. *)
Theorem C2_direct_headers_overwrite_on_failure :
  let start th ph :=
    currentExecutionInfo
      (startExecutionSpan (H := datadog_headers) (time.Unix 2 0) ""
         {| LambdaInvokeEventHeaders.TraceID := th;
            LambdaInvokeEventHeaders.ParentID := ph |} used_state) in
  Headers (convertRawPayload "") = None
  /\ first_draw used_state = 1000
  /\ strconv.ParseUint "abc" = (0, Some strconv.ErrSyntax)
  /\ (traceID (start "abc" "7") = 0 /\ parentID (start "abc" "7") = 7)
  /\ strconv.ParseUint "xyz" = (0, Some strconv.ErrSyntax)
  /\ (traceID (start "5" "xyz") = 5 /\ parentID (start "5" "xyz") = 0)
  /\ strconv.ParseUint "18446744073709551616" = (2 ^ 64 - 1, Some strconv.ErrRange)
  /\ (traceID (start "5" "18446744073709551616") = 5
      /\ parentID (start "5" "18446744073709551616") = 2 ^ 64 - 1).
Proof. cbv zeta. vm_compute. repeat split; reflexivity. Qed.

Section TrackerClaims.

Context `{HeaderNames}.

Implicit Types (st : State) (raw : string) (t : time.Time)
  (hdrs : LambdaInvokeEventHeaders.t) (m : gmap string string).

(** C3.  When the payload decodes to a header mapping whose trace-ID
    header parses as an unsigned 64-bit value and inferred spans are
    disabled, [TraceID] after the start is that value.  For the scenario
    payload, with the trace-ID header named x-datadog-trace-id, a
    parent-ID header of another name and no direct headers, the trace ID
    is 42 and the parent ID is 0. *)
Theorem C3_embedded_trace_id_resolved :
  (forall t raw hdrs st m s v,
      Headers (convertRawPayload raw) = Some m ->
      m !! TraceIDHeader = Some s ->
      strconv.ParseUint s = (v, None) ->
      InferredSpansEnabled st = false ->
      TraceID (startExecutionSpan t raw hdrs st) = v)
  /\ (forall t st,
        TraceIDHeader = "x-datadog-trace-id" ->
        ParentIDHeader <> "x-datadog-trace-id" ->
        InferredSpansEnabled st = false ->
        TraceID (startExecutionSpan t scenario_payload no_headers st) = 42
        /\ parentID (currentExecutionInfo
                       (startExecutionSpan t scenario_payload no_headers st)) = 0).
Proof.
  split.
  - intros t raw hdrs st m s v Hm Hs Hv Hoff. unfold TraceID.
    rewrite (start_embedded_traceID _ _ _ _ m Hm).
    unfold index. rewrite Hs. cbn. rewrite Hv. reflexivity.
  - intros t st Htid Hpid Hoff.
    assert (Hm : Headers (convertRawPayload scenario_payload)
                 = Some {[ "x-datadog-trace-id" := "42" ]})
      by (vm_compute; reflexivity).
    unfold TraceID.
    rewrite (start_embedded_traceID _ _ _ _ _ Hm),
            (start_embedded_parentID _ _ _ _ _ Hm), Hoff, Htid.
    unfold index. rewrite lookup_singleton_eq, lookup_singleton_ne by congruence.
    split; reflexivity.
Qed.

(** C4.  With embedded headers and inferred spans disabled, a trace-ID
    header that parses and a parent-ID header that does not give the
    parsed trace ID and parent ID 0.  Each of the three fields is decided
    by the parse of its own header alone: the trace ID is the parsed value
    or else the random default, the parent ID the parsed value or else 0,
    the sampling priority the parsed value or else what the state held. *)
Theorem C4_embedded_fields_independent t raw hdrs st m :
  Headers (convertRawPayload raw) = Some m ->
  InferredSpansEnabled st = false ->
  let st' := currentExecutionInfo (startExecutionSpan t raw hdrs st) in
  (forall v p e,
      strconv.ParseUint (index m TraceIDHeader) = (v, None) ->
      strconv.ParseUint (index m ParentIDHeader) = (p, Some e) ->
      traceID st' = v /\ parentID st' = 0)
  /\ traceID st' =
       match strconv.ParseUint (index m TraceIDHeader) with
       | (v, None) => v
       | (_, Some _) => first_draw st
       end
  /\ parentID st' =
       match strconv.ParseUint (index m ParentIDHeader) with
       | (p, None) => p
       | (_, Some _) => 0
       end
  /\ samplingPriority st' =
       match strconv.ParseUint (index m SamplingPriorityHeader) with
       | (v, None) => Some v
       | (_, Some _) => samplingPriority (currentExecutionInfo st)
       end.
Proof.
  intros Hm Hoff st'. subst st'.
  rewrite (start_embedded_traceID _ _ _ _ m Hm),
          (start_embedded_parentID _ _ _ _ m Hm),
          (start_embedded_samplingPriority _ _ _ _ m Hm), Hoff.
  split; [|auto].
  intros v p e Hv Hp. rewrite Hv, Hp. auto.
Qed.

(** C5, as the code has it.  The sampling priority is an optional
    unsigned 64-bit integer.  When the embedded sampling-priority header
    parses as such, the start records that value, and the chunk built at
    the end carries it converted to [int32], which is the value itself
    below 2^31.  A header value with a sign does not parse: the start
    leaves the sampling priority as it was. *)
Theorem C5_sampling_priority_recorded_unsigned t raw hdrs st m :
  Headers (convertRawPayload raw) = Some m ->
  let st' := startExecutionSpan t raw hdrs st in
  (forall v,
      strconv.ParseUint (index m SamplingPriorityHeader) = (v, None) ->
      0 <= v < 2 ^ 64
      /\ samplingPriority (currentExecutionInfo st') = Some v
      /\ forall requestID endTime isError responsePayload,
           pb.Priority (traceChunk requestID endTime isError responsePayload st')
             = int32 v
           /\ (v < 2 ^ 31 ->
               pb.Priority (traceChunk requestID endTime isError responsePayload st')
                 = v))
  /\ (forall sign digits,
        sign = "-"%char \/ sign = "+"%char ->
        m !! SamplingPriorityHeader = Some (String sign digits) ->
        samplingPriority (currentExecutionInfo st')
          = samplingPriority (currentExecutionInfo st)).
Proof.
  intros Hm st'. subst st'. split.
  - intros v Hv. pose proof (ParseUint_range _ _ Hv) as Hr.
    assert (Hsp : samplingPriority
                    (currentExecutionInfo (startExecutionSpan t raw hdrs st)) = Some v)
      by (rewrite (start_embedded_samplingPriority _ _ _ _ m Hm), Hv; reflexivity).
    split; [exact Hr|]. split; [exact Hsp|].
    intros requestID endTime isError responsePayload.
    rewrite traceChunk_Priority, Hsp.
    split; [reflexivity|]. intros Hlt. apply int32_small. lia.
  - intros sign digits Hsign Hs.
    rewrite (start_embedded_samplingPriority _ _ _ _ m Hm).
    unfold index. rewrite Hs. cbn [default from_option].
    destruct Hsign as [-> | ->]; reflexivity.
Qed.

(** C10.  Whatever the payload, the direct headers and the inferred-span
    mode, the span ID after the start is the second value drawn from the
    random source (the first goes to the trace ID); [SpanID] returns it,
    and the span built at the end carries it. *)
Theorem C10_span_id_is_the_random_draw t raw hdrs st :
  let st' := startExecutionSpan t raw hdrs st in
  SpanID st' = second_draw st
  /\ 0 <= SpanID st' < 2 ^ 64
  /\ forall requestID endTime isError responsePayload,
       pb.SpanID (executionSpan requestID endTime isError responsePayload st')
         = second_draw st.
Proof.
  cbv zeta. unfold SpanID. rewrite start_spanID.
  split; [reflexivity|]. split; [apply uint64_range|].
  intros requestID endTime isError responsePayload.
  destruct (executionSpan_ids requestID endTime isError responsePayload
              (startExecutionSpan t raw hdrs st)) as (_ & -> & _).
  apply start_spanID.
Qed.

End TrackerClaims.

(** ** Claims about [endExecutionSpan] *)

(** C6, as the code has it.  The span's start is the [UnixNano] reading of
    the start time stored at the start, and its duration is the difference
    of the two [UnixNano] readings in [int64]: a function of the stored
    start time and the supplied end time alone.  Whenever both instants and
    their distance fit in 64 signed bits, the start is the stored instant
    and the duration is exactly end minus start, in nanoseconds, whatever
    its sign. *)
Theorem C6_duration_end_minus_start `{HeaderNames}
    (t0 : time.Time) (raw : string) (hdrs : LambdaInvokeEventHeaders.t) (st0 : State)
    (requestID : string) (endTime : time.Time) (isError : bool)
    (responsePayload : string) :
  let st := startExecutionSpan t0 raw hdrs st0 in
  let s := executionSpan requestID endTime isError responsePayload st in
  pb.Start s = time.UnixNano t0
  /\ pb.Duration s = int64 (time.UnixNano endTime - time.UnixNano t0)
  /\ (- 2 ^ 63 <= time.nanos t0 < 2 ^ 63 ->
      - 2 ^ 63 <= time.nanos endTime < 2 ^ 63 ->
      - 2 ^ 63 <= time.nanos endTime - time.nanos t0 < 2 ^ 63 ->
      pb.Start s = time.nanos t0
      /\ pb.Duration s = time.nanos endTime - time.nanos t0).
Proof.
  cbv zeta.
  destruct (executionSpan_ids requestID endTime isError responsePayload
              (startExecutionSpan t0 raw hdrs st0)) as (_ & _ & _ & -> & ->).
  rewrite start_startTime.
  split; [reflexivity|]. split; [reflexivity|].
  intros H0 H1 Hd. unfold time.UnixNano. fold (time.nanos t0) (time.nanos endTime).
  rewrite (int64_small _ H0), (int64_small _ H1), (int64_small _ Hd).
  split; reflexivity.
Qed.

(** C7.  The error indicator of the span is 1 when [isError] is true and 0
    when it is false, so it is set if and only if [isError] is true; this
    is the span of the one chunk of the payload handed to the sink. *)
Theorem C7_error_indicator_iff_isError
    (requestID : string) (endTime : time.Time) (isError : bool)
    (responsePayload : string) (st : State) :
  let s := executionSpan requestID endTime isError responsePayload st in
  pb.Error s = (if isError then 1 else 0)
  /\ (pb.Error s = 1 <-> isError = true)
  /\ (pb.Error s <> 0 <-> isError = true)
  /\ forall (Sink : Type) (processTrace : api.Payload -> Sink -> Sink) (sink : Sink),
       exists c,
         endExecutionSpan processTrace requestID endTime isError responsePayload st sink
         = processTrace {| api.TracerPayload := {| pb.Chunks := [c] |} |} sink
         /\ pb.Spans c = [s].
Proof.
  cbv zeta.
  assert (He : pb.Error (executionSpan requestID endTime isError responsePayload st)
               = if isError then 1 else 0).
  { unfold executionSpan.
    destruct (GetBool st "capture_lambda_payload"), isError; reflexivity. }
  rewrite He. split; [reflexivity|].
  split; [destruct isError; split; intros; (reflexivity || discriminate)|].
  split; [destruct isError; split; intros; (reflexivity || congruence)|].
  intros Sink processTrace sink.
  exists (traceChunk requestID endTime isError responsePayload st).
  apply endExecutionSpan_emits.
Qed.

(** C8.  With the capture-payload setting disabled the span's metadata is
    the request ID alone: the keys function.request and function.response
    are absent whatever the stored request payload and the response
    payload.  With the setting enabled the two are added, and the span is
    otherwise the same. *)
Theorem C8_no_payload_metadata_without_capture
    (requestID : string) (endTime : time.Time) (isError : bool)
    (responsePayload : string) (st : State) :
  GetBool st "capture_lambda_payload" = false ->
  let off := executionSpan requestID endTime isError responsePayload st in
  let on := executionSpan requestID endTime isError responsePayload (set_capture true st) in
  pb.Meta off !! "function.request" = None
  /\ pb.Meta off !! "function.response" = None
  /\ pb.Meta off = {[ "request_id" := requestID ]}
  /\ pb.Meta on
     = <["function.response" := responsePayload]>
         (<["function.request" := requestPayload (currentExecutionInfo st)]>
            {[ "request_id" := requestID ]})
  /\ off = pb.set_Meta (pb.Meta off) on.
Proof.
  intros Hoff. cbv zeta. unfold executionSpan. rewrite Hoff. cbn.
  destruct isError; cbn; repeat split; reflexivity.
Qed.

(** ** Claims about the lifecycle hooks *)

(** The end hook never writes the package state. *)
Lemma OnInvokeEnd_pkg {Sink InferredPkg ExecutionContext : Type}
    (Complete : (api.Payload -> Sink -> Sink) -> time.Time -> bool -> string ->
                InferredPkg -> Sink -> InferredPkg * Sink)
    (lp : LifecycleProcessor Sink ExecutionContext) (endDetails : InvocationEndDetails)
    (w : World Sink InferredPkg) :
  pkg (OnInvokeEnd Complete lp endDetails w) = pkg w.
Proof.
  unfold OnInvokeEnd.
  destruct (DetectLambdaLibrary lp tt), (IsError endDetails); cbn;
    destruct (_ && _); cbn; try reflexivity;
    destruct (Complete _ _ _ _ _ _); reflexivity.
Qed.

(** C9.  When library detection returns true, the start hook leaves the
    package state (so every field of [currentExecutionInfo]) and the sink
    as they were, and so does the end hook for the package state; after the
    end hook the sink is either untouched or, with both tracing flags on,
    what the completion of the inferred span made of the untouched sink:
    [endExecutionSpan] has not run.  With [IsError] true the end hook still
    adds the invocation-error sample, tagged with the extra tags and
    stamped with the end time, to the demultiplexer. *)
Theorem C9_library_present_skips_span_keeps_metric `{HeaderNames}
    {Sink InferredPkg ExecutionContext : Type}
    (Create : string -> ExecutionContext -> InferredPkg -> InferredPkg)
    (Complete : (api.Payload -> Sink -> Sink) -> time.Time -> bool -> string ->
                InferredPkg -> Sink -> InferredPkg * Sink)
    (lp : LifecycleProcessor Sink ExecutionContext)
    (startDetails : InvocationStartDetails) (ctx : ExecutionContext)
    (endDetails : InvocationEndDetails) (w : World Sink InferredPkg) :
  DetectLambdaLibrary lp tt = true ->
  let flags :=
    String.eqb (strings.ToLower (Getenv (pkg w) "DD_TRACE_ENABLED")) "true"
    && String.eqb (strings.ToLower (Getenv (pkg w) "DD_TRACE_MANAGED_SERVICES")) "true" in
  let w1 := OnInvokeStart Create lp startDetails ctx w in
  let w2 := OnInvokeEnd Complete lp endDetails w in
  (pkg w1 = pkg w /\ traceSink w1 = traceSink w /\ demux w1 = demux w)
  /\ pkg w2 = pkg w
  /\ traceSink w2
     = (if flags
        then snd (Complete (ProcessTrace lp) (EndTime endDetails) (IsError endDetails)
                    (RequestID endDetails) (inferredPkg w) (traceSink w))
        else traceSink w)
  /\ (IsError endDetails = true ->
      demux w2
      = serverlessMetrics.SendErrorsEnhancedMetric
          (serverlessLog.Tags.Tags (ExtraTags lp)) (EndTime endDetails) (demux w))
  /\ (IsError endDetails = true ->
      demux w2
      = (demux w ++
          [ {| serverlessMetrics.Metric := serverlessMetrics.InvocationErrors;
               serverlessMetrics.SampleTags := serverlessLog.Tags.Tags (ExtraTags lp);
               serverlessMetrics.Timestamp := EndTime endDetails |} ])%list).
Proof.
  intros Hlib. cbv zeta. unfold OnInvokeStart, OnInvokeEnd. rewrite Hlib. cbn.
  split.
  { destruct (_ && _); cbn; auto. }
  split.
  { destruct (IsError endDetails); cbn; destruct (_ && _); cbn; try reflexivity;
      destruct (Complete _ _ _ _ _ _); reflexivity. }
  split.
  { destruct (IsError endDetails); cbn; destruct (_ && _); cbn; try reflexivity;
      destruct (Complete _ _ _ _ _ _); reflexivity. }
  assert (Hmetric :
            IsError endDetails = true ->
            demux (OnInvokeEnd Complete lp endDetails w)
            = serverlessMetrics.SendErrorsEnhancedMetric
                (serverlessLog.Tags.Tags (ExtraTags lp)) (EndTime endDetails) (demux w)).
  { intros Herr. unfold OnInvokeEnd. rewrite Hlib, Herr. cbn.
    destruct (_ && _); cbn; try reflexivity.
    destruct (Complete _ _ _ _ _ _); reflexivity. }
  unfold OnInvokeEnd in Hmetric. rewrite Hlib in Hmetric. cbn in Hmetric.
  split; [exact Hmetric|]. intros Herr. rewrite (Hmetric Herr). reflexivity.
Qed.

(** ** The claims at concrete inputs *)

(** C3 at the scenario payload. *)
Lemma C3_witness :
  TraceID (startExecutionSpan (H := datadog_headers) (time.Unix 2 0) scenario_payload
             no_headers used_state) = 42
  /\ parentID (currentExecutionInfo
                 (startExecutionSpan (H := datadog_headers) (time.Unix 2 0)
                    scenario_payload no_headers used_state)) = 0.
Proof.
  pose proof (@C3_embedded_trace_id_resolved datadog_headers) as [Hgen Hscen].
  split.
  - apply (Hgen _ _ _ _ {[ "x-datadog-trace-id" := "42" ]} "42" 42);
      vm_compute; reflexivity.
  - apply Hscen; [reflexivity | discriminate | reflexivity].
Defined.

(** C4 at a payload whose trace ID is 42 and whose parent ID is no number. *)
Lemma C4_witness :
  let st' :=
    currentExecutionInfo
      (startExecutionSpan (H := datadog_headers) (time.Unix 2 0)
         (payload_trace_parent "42" "oops") no_headers used_state) in
  traceID st' = 42 /\ parentID st' = 0.
Proof.
  cbv zeta.
  assert (Hm : Headers (convertRawPayload (payload_trace_parent "42" "oops"))
               = Some (<["x-datadog-parent-id" := "oops"]>
                         {[ "x-datadog-trace-id" := "42" ]}))
    by (vm_compute; reflexivity).
  destruct (@C4_embedded_fields_independent datadog_headers (time.Unix 2 0)
              (payload_trace_parent "42" "oops") no_headers used_state _ Hm
              ltac:(reflexivity)) as [Hmixed _].
  apply (Hmixed 42 0 strconv.ErrSyntax); vm_compute; reflexivity.
Defined.

(** C5 at a payload whose sampling priority is 2. *)
Lemma C5_witness :
  let st' :=
    startExecutionSpan (H := datadog_headers) (time.Unix 2 0)
      (payload_with "x-datadog-sampling-priority" "2") no_headers fresh_state in
  samplingPriority (currentExecutionInfo st') = Some 2
  /\ pb.Priority (traceChunk "req" (time.Unix 3 0) false "" st') = 2.
Proof.
  cbv zeta.
  assert (Hm : Headers (convertRawPayload (payload_with "x-datadog-sampling-priority" "2"))
               = Some {[ "x-datadog-sampling-priority" := "2" ]})
    by (vm_compute; reflexivity).
  destruct (@C5_sampling_priority_recorded_unsigned datadog_headers (time.Unix 2 0)
              (payload_with "x-datadog-sampling-priority" "2") no_headers fresh_state
              _ Hm) as [Hrec _].
  destruct (Hrec 2 ltac:(vm_compute; reflexivity)) as (_ & Hsp & Hend).
  split; [exact Hsp|].
  apply (Hend "req" (time.Unix 3 0) false ""). lia.
Defined.

(** C5 as stated fails.  A header value of -1 is not recorded, and a
    recorded value of 2^31 reaches the chunk as -2^31. *)
Lemma C5_counterexample :
  (let st' :=
     startExecutionSpan (H := datadog_headers) (time.Unix 2 0)
       (payload_with "x-datadog-sampling-priority" "-1") no_headers fresh_state in
   Headers (convertRawPayload (payload_with "x-datadog-sampling-priority" "-1"))
     = Some {[ "x-datadog-sampling-priority" := "-1" ]}
   /\ samplingPriority (currentExecutionInfo st') = None
   /\ samplingPriority (currentExecutionInfo st') <> Some (-1))
  /\ (let st' :=
        startExecutionSpan (H := datadog_headers) (time.Unix 2 0)
          (payload_with "x-datadog-sampling-priority" "2147483648") no_headers
          fresh_state in
      samplingPriority (currentExecutionInfo st') = Some 2147483648
      /\ pb.Priority (traceChunk "req" (time.Unix 3 0) false "" st') = -2147483648
      /\ pb.Priority (traceChunk "req" (time.Unix 3 0) false "" st') <> 2147483648).
Proof.
  cbv zeta. split.
  - split; [vm_compute; reflexivity|].
    split; [vm_compute; reflexivity|]. vm_compute. discriminate.
  - split; [vm_compute; reflexivity|].
    split; [vm_compute; reflexivity|]. vm_compute. discriminate.
Qed.

(** C6 at a start time five seconds after the end time. *)
Lemma C6_witness :
  let st :=
    startExecutionSpan (H := datadog_headers) (time.Unix 15 0) "" no_headers used_state in
  let s := executionSpan "req" (time.Unix 10 0) false "" st in
  pb.Start s = 15000000000 /\ pb.Duration s = -5000000000.
Proof.
  cbv zeta.
  destruct (@C6_duration_end_minus_start datadog_headers (time.Unix 15 0) ""
              no_headers used_state "req" (time.Unix 10 0) false "")
    as (_ & _ & Hexact).
  apply Hexact; vm_compute; split; first [discriminate | reflexivity].
Defined.

(** C6 as stated fails.  Both instants are within the range of [UnixNano],
    about 570 years apart: the difference of the readings wraps. *)
Lemma C6_counterexample :
  let st :=
    startExecutionSpan (H := datadog_headers) (time.Unix (-9000000000) 0) ""
      no_headers used_state in
  let endTime := time.Unix 9000000000 0 in
  let s := executionSpan "req" endTime false "" st in
  time.nanos endTime - time.nanos (startTime (currentExecutionInfo st))
    = 18000000000000000000
  /\ pb.Duration s = -446744073709551616
  /\ pb.Duration s
     <> time.nanos endTime - time.nanos (startTime (currentExecutionInfo st)).
Proof.
  cbv zeta. split; [vm_compute; reflexivity|].
  split; [vm_compute; reflexivity|]. vm_compute. discriminate.
Qed.

(** C7 at an invocation that failed. *)
Lemma C7_witness :
  pb.Error (executionSpan "req" (time.Unix 3 0) true "" used_state) = 1.
Proof.
  destruct (C7_error_indicator_iff_isError "req" (time.Unix 3 0) true "" used_state)
    as (_ & [_ Hset] & _).
  apply Hset. reflexivity.
Defined.

(** C8 at a state whose configuration has capture disabled. *)
Lemma C8_witness :
  pb.Meta (executionSpan "req" (time.Unix 3 0) false "response" used_state)
    !! "function.request" = None
  /\ pb.Meta (executionSpan "req" (time.Unix 3 0) false "response" used_state)
       !! "function.response" = None.
Proof.
  destruct (C8_no_payload_metadata_without_capture "req" (time.Unix 3 0) false
              "response" used_state ltac:(reflexivity)) as (Hreq & Hresp & _).
  split; [exact Hreq | exact Hresp].
Defined.

(** C9 at a failed invocation with the library present: no payload reaches
    the sink, one sample reaches the demultiplexer. *)
Lemma C9_witness :
  let w2 :=
    OnInvokeEnd (fun _ _ _ _ i s => (i, s)) (recording_processor true) failed_end
      (OnInvokeStart (H := datadog_headers) (fun _ _ i => i) (recording_processor true)
         {| StartTime := time.Unix 2 0; InvokeEventRawPayload := scenario_payload;
            InvokeEventHeaders := no_headers |} tt quiet_world) in
  currentExecutionInfo (pkg w2) = currentExecutionInfo used_state
  /\ traceSink w2 = []
  /\ demux w2
     = [ {| serverlessMetrics.Metric := serverlessMetrics.InvocationErrors;
            serverlessMetrics.SampleTags := ["functionname:f"];
            serverlessMetrics.Timestamp := time.Unix 3 0 |} ].
Proof.
  cbv zeta.
  set (sd := {| StartTime := time.Unix 2 0; InvokeEventRawPayload := scenario_payload;
                InvokeEventHeaders := no_headers |}).
  set (w1 := OnInvokeStart (H := datadog_headers) (fun _ _ i => i)
               (recording_processor true) sd tt quiet_world).
  destruct (@C9_library_present_skips_span_keeps_metric datadog_headers
              (list api.Payload) unit unit (fun _ _ i => i) (fun _ _ _ _ i s => (i, s))
              (recording_processor true) sd tt failed_end quiet_world
              ltac:(reflexivity)) as ((Hp1 & Hs1 & Hd1) & _).
  destruct (@C9_library_present_skips_span_keeps_metric datadog_headers
              (list api.Payload) unit unit (fun _ _ i => i) (fun _ _ _ _ i s => (i, s))
              (recording_processor true) sd tt failed_end w1
              ltac:(reflexivity)) as (_ & Hp2 & Hs2 & _ & Hd2).
  fold w1 in Hp1, Hs1, Hd1.
  rewrite Hp2, Hs2, (Hd2 ltac:(reflexivity)), Hp1, Hs1, Hd1.
  repeat split; reflexivity.
Defined.

(** * Further properties of [trace.go] and [lifecycle.go] *)

(** ** [convertRawPayload]: where the embedded object is found *)

Lemma FindString_no_open (s : string) :
  has_byte 123 s = false -> regexp.FindString s = "".
Proof.
  induction s as [|c r IH]; [reflexivity|].
  cbn [has_byte regexp.FindString regexp.match_at]. intros Hs.
  apply orb_false_iff in Hs as [Hc Hr]. rewrite Hc. exact (IH Hr).
Qed.

Lemma dot_star_close_no_close (s : string) :
  has_byte 125 s = false -> regexp.dot_star_close s = None.
Proof.
  induction s as [|c r IH]; [reflexivity|].
  cbn [has_byte regexp.dot_star_close]. intros Hs.
  apply orb_false_iff in Hs as [Hc Hr]. rewrite (IH Hr), Hc.
  destruct (byte_val c =? 10); reflexivity.
Qed.

Lemma FindString_no_close (s : string) :
  has_byte 125 s = false -> regexp.FindString s = "".
Proof.
  induction s as [|c r IH]; [reflexivity|].
  cbn [has_byte]. intros Hs. apply orb_false_iff in Hs as [Hc Hr].
  cbn [regexp.FindString regexp.match_at].
  destruct (byte_val c =? 123); [|exact (IH Hr)].
  destruct r as [|c1 r1]; [reflexivity|].
  pose proof Hr as Hr'. cbn [has_byte] in Hr'.
  apply orb_false_iff in Hr' as [Hc1 _]. rewrite Hc1.
  rewrite (dot_star_close_no_close _ Hr). exact (IH Hr).
Qed.

(** X1.  A payload with no opening brace, or with no closing brace, has no
    embedded object: it decodes to no header mapping. *)
Theorem X1_no_brace_no_headers (rawPayload : string) :
  has_byte 123 rawPayload = false \/ has_byte 125 rawPayload = false ->
  convertRawPayload rawPayload = {| Headers := None |}.
Proof.
  intros Hraw. unfold convertRawPayload.
  assert (Hfind : regexp.FindString rawPayload = "")
    by (destruct Hraw; [apply FindString_no_open | apply FindString_no_close]; assumption).
  rewrite Hfind. reflexivity.
Qed.

Lemma X1_witness :
  convertRawPayload "plain text, no opening brace }" = {| Headers := None |}.
Proof.
  apply (X1_no_brace_no_headers "plain text, no opening brace }").
  left. reflexivity.
Defined.


Lemma append_cons (c : ascii) (s t : string) :
  (String c s ++ t)%string = String c (s ++ t)%string.
Proof. reflexivity. Qed.

Lemma append_nil (t : string) : ("" ++ t)%string = t.
Proof. reflexivity. Qed.

Lemma append_assoc (a b c : string) : ((a ++ b) ++ c = a ++ (b ++ c))%string.
Proof.
  induction a as [|x a IH]; [reflexivity|].
  rewrite !append_cons, IH. reflexivity.
Qed.

Lemma has_byte_app (b : Z) (s t : string) :
  has_byte b (s ++ t)%string = has_byte b s || has_byte b t.
Proof.
  induction s as [|c r IH]; [reflexivity|].
  rewrite append_cons. cbn [has_byte]. rewrite IH. apply orb_assoc.
Qed.

Lemma dot_star_close_line (mid suf : string) :
  has_byte 10 mid = false -> has_byte 125 suf = false ->
  regexp.dot_star_close (mid ++ String "}" suf)%string = Some (mid ++ "}")%string.
Proof.
  intros Hmid Hsuf. induction mid as [|c r IH].
  - rewrite !append_nil. cbn [regexp.dot_star_close].
    rewrite (dot_star_close_no_close _ Hsuf). reflexivity.
  - cbn [has_byte] in Hmid. apply orb_false_iff in Hmid as [Hc Hr].
    rewrite !append_cons. cbn [regexp.dot_star_close].
    rewrite Hc, (IH Hr). reflexivity.
Qed.

Lemma FindString_greedy_skip (pre s : string) :
  has_byte 123 pre = false ->
  regexp.FindString_greedy (pre ++ s)%string = regexp.FindString_greedy s.
Proof.
  induction pre as [|c r IH]; [reflexivity|].
  cbn [has_byte]. intros Hp. apply orb_false_iff in Hp as [Hc Hr].
  rewrite append_cons. cbn [regexp.FindString_greedy regexp.match_at_greedy].
  rewrite Hc. exact (IH Hr).
Qed.

Lemma FindString_greedy_one_line (pre mid suf : string) :
  has_byte 123 pre = false ->
  has_byte 10 mid = false ->
  has_byte 125 suf = false ->
  regexp.FindString_greedy (pre ++ String "{" (mid ++ String "}" suf))%string
  = String "{" (mid ++ "}")%string.
Proof.
  intros Hpre Hmid Hsuf. rewrite (FindString_greedy_skip _ _ Hpre).
  cbn [regexp.FindString_greedy regexp.match_at_greedy].
  change (byte_val "{" =? 123) with true. cbv iota.
  rewrite (dot_star_close_line _ _ Hmid Hsuf). reflexivity.
Qed.

(** X2.  Noise around a one-line object is stripped.  When an opening
    brace, a run without line feed and a closing brace are preceded by text
    without opening brace and followed by text without closing brace, the
    payload decodes as that brace-delimited text alone. *)
Theorem X2_noise_around_object_is_stripped (pre mid suf : string) :
  has_byte 123 pre = false ->
  has_byte 10 mid = false ->
  has_byte 125 suf = false ->
  convertRawPayload (pre ++ String "{" (mid ++ String "}" suf))%string
  = Unmarshal (String "{" (mid ++ "}"))%string {| Headers := None |}.
Proof.
  intros Hpre Hmid Hsuf.
  rewrite <- convertRawPayload_greedy.
  rewrite (FindString_greedy_one_line _ _ _ Hpre Hmid Hsuf). reflexivity.
Qed.

(** ** [convertRawPayload]: what the embedded object decodes to *)

Lemma plain_no_line_feed (s : string) : plain s = true -> has_byte 10 s = false.
Proof.
  induction s as [|c r IH]; [reflexivity|].
  cbn [plain has_byte]. intros Hs. apply andb_true_iff in Hs as [Hc Hr].
  rewrite (IH Hr), orb_false_r. unfold plain_byte in Hc.
  destruct (Z.eqb_spec (byte_val c) 10) as [Heq|]; [|reflexivity].
  rewrite Heq in Hc. discriminate.
Qed.

(** A literal of plain bytes unquotes to itself. *)
Lemma unquote_plain (s rest : string) :
  plain s = true ->
  json.unquote (s ++ String (ascii_of_N 34) rest)%string = Some (s, rest).
Proof.
  induction s as [|c r IH]; [reflexivity|].
  cbn [plain]. intros Hs. apply andb_true_iff in Hs as [Hc Hr].
  rewrite append_cons. cbn [json.unquote]. rewrite (IH Hr).
  unfold plain_byte in Hc.
  apply andb_true_iff in Hc as [Hc H92]. apply andb_true_iff in Hc as [Hc H34].
  apply andb_true_iff in Hc as [H32 H128].
  apply negb_true_iff in H92, H34. rewrite H34, H92, H128.
  replace (byte_val c <? 32) with false by (symmetry; apply Z.ltb_ge; lia).
  reflexivity.
Qed.

Lemma lex_string (f : nat) (s rest : string) :
  plain s = true ->
  json.lex (S f) (String (ascii_of_N 34) (s ++ String (ascii_of_N 34) rest))%string
  = json.push (json.TString s) (json.lex f rest).
Proof.
  intros Hs. cbn [json.lex].
  change (json.isSpace (ascii_of_N 34)) with false.
  change (byte_val (ascii_of_N 34)) with 34. cbn.
  rewrite (unquote_plain _ _ Hs). reflexivity.
Qed.

(** The one-header payload, byte by byte. *)
Lemma payload_with_shape (k v : string) :
  payload_with k v
  = String "{"
      (String (ascii_of_N 34)
         ("headers" ++ String (ascii_of_N 34)
            (String ":" (String "{"
               (String (ascii_of_N 34)
                  (k ++ String (ascii_of_N 34)
                     (String ":"
                        (String (ascii_of_N 34)
                           (v ++ String (ascii_of_N 34) "}}")))))))))%string.
Proof.
  unfold payload_with, quoted, dquote.
  rewrite ?append_cons, ?append_nil, ?append_assoc, ?append_cons, ?append_nil.
  reflexivity.
Qed.

Lemma lex_open (f : nat) (r : string) :
  json.lex (S f) (String "{" r) = json.push json.TLBrace (json.lex f r).
Proof. reflexivity. Qed.

Lemma lex_close (f : nat) (r : string) :
  json.lex (S f) (String "}" r) = json.push json.TRBrace (json.lex f r).
Proof. reflexivity. Qed.

Lemma lex_colon (f : nat) (r : string) :
  json.lex (S f) (String ":" r) = json.push json.TColon (json.lex f r).
Proof. reflexivity. Qed.

Lemma lex_comma (f : nat) (r : string) :
  json.lex (S f) (String "," r) = json.push json.TComma (json.lex f r).
Proof. reflexivity. Qed.

Lemma length_append (a b : string) :
  String.length (a ++ b)%string = (String.length a + String.length b)%nat.
Proof.
  induction a as [|c a IH]; [reflexivity|].
  rewrite append_cons. cbn [String.length]. rewrite IH. reflexivity.
Qed.

Lemma lex_payload_with (k v : string) :
  plain k = true -> plain v = true ->
  json.lex (S (String.length (payload_with k v))) (payload_with k v)
  = Some [json.TLBrace; json.TString "headers"; json.TColon;
          json.TLBrace; json.TString k; json.TColon; json.TString v;
          json.TRBrace; json.TRBrace].
Proof.
  intros Hk Hv. rewrite payload_with_shape.
  match goal with |- json.lex (S ?n) _ = _ => assert (Hn : (9 <= n)%nat) end.
  { cbn [String.length]. rewrite length_append. cbn [String.length]. lia. }
  match goal with |- json.lex (S ?n) _ = _ => generalize dependent n end.
  intros n Hn.
  do 9 (destruct n as [|n]; [lia|]). clear Hn.
  rewrite lex_open.
  rewrite (lex_string _ "headers") by reflexivity.
  rewrite lex_colon, lex_open.
  rewrite (lex_string _ k) by exact Hk.
  rewrite lex_colon.
  rewrite (lex_string _ v) by exact Hv.
  rewrite !lex_close. reflexivity.
Qed.

Lemma Unmarshal_payload_with (k v : string) :
  plain k = true -> plain v = true ->
  Unmarshal (payload_with k v) {| Headers := None |}
  = {| Headers := Some {[ k := v ]} |}.
Proof.
  intros Hk Hv. unfold Unmarshal, json.parse.
  rewrite (lex_payload_with k v Hk Hv). reflexivity.
Qed.

Lemma payload_with_one_line (k v : string) :
  plain k = true -> plain v = true ->
  exists mid,
    has_byte 10 mid = false
    /\ forall suf, (payload_with k v ++ suf)%string = String "{" (mid ++ String "}" suf).
Proof.
  intros Hk Hv.
  exists (quoted "headers" ++ ":{" ++ quoted k ++ ":" ++ quoted v ++ "}")%string.
  split.
  - unfold quoted, dquote. rewrite !has_byte_app.
    rewrite (plain_no_line_feed _ Hk), (plain_no_line_feed _ Hv). reflexivity.
  - intros suf. unfold payload_with.
    rewrite ?append_assoc, ?append_cons, ?append_nil.
    rewrite ?append_assoc, ?append_cons, ?append_nil. reflexivity.
Qed.

Lemma append_empty (s : string) : (s ++ "")%string = s.
Proof.
  induction s as [|c s IH]; [reflexivity|]. rewrite append_cons, IH. reflexivity.
Qed.

Lemma FindString_greedy_payload_with (pre suf k v : string) :
  plain k = true -> plain v = true ->
  has_byte 123 pre = false -> has_byte 125 suf = false ->
  regexp.FindString_greedy (pre ++ payload_with k v ++ suf)%string = payload_with k v.
Proof.
  intros Hk Hv Hpre Hsuf.
  destruct (payload_with_one_line k v Hk Hv) as (mid & Hmid & Hshape).
  rewrite (Hshape suf), (FindString_greedy_one_line _ _ _ Hpre Hmid Hsuf).
  rewrite <- (append_empty (payload_with k v)), (Hshape ""). reflexivity.
Qed.

(** X3.  Round trip of an embedded header.  A payload made of a headers
    object with one member, key and value in plain printable ASCII, inside
    text that has no opening brace before it and no closing brace after it,
    decodes to the mapping of that key to that value. *)
Theorem X3_embedded_header_round_trip (pre suf k v : string) :
  plain k = true -> plain v = true ->
  has_byte 123 pre = false -> has_byte 125 suf = false ->
  convertRawPayload (pre ++ payload_with k v ++ suf)%string
  = {| Headers := Some {[ k := v ]} |}.
Proof.
  intros Hk Hv Hpre Hsuf.
  rewrite <- convertRawPayload_greedy.
  rewrite (FindString_greedy_payload_with _ _ _ _ Hk Hv Hpre Hsuf).
  apply Unmarshal_payload_with; assumption.
Qed.

Lemma X3_witness :
  convertRawPayload
    ("START RequestId: 1 " ++ payload_with "x-datadog-trace-id" "0x2A" ++ " END")%string
  = {| Headers := Some {[ "x-datadog-trace-id" := "0x2A" ]} |}.
Proof.
  apply (X3_embedded_header_round_trip "START RequestId: 1 " " END"
           "x-datadog-trace-id" "0x2A"); reflexivity.
Defined.

Lemma X2_witness :
  convertRawPayload ("event: " ++ String "{" ("not json" ++ String "}" " (end)"))%string
  = Unmarshal (String "{" ("not json" ++ "}"))%string {| Headers := None |}.
Proof.
  apply (X2_noise_around_object_is_stripped "event: " "not json" " (end)"); reflexivity.
Defined.

(** ** From a payload to the identifiers of the span *)

Lemma digit_plain (c : ascii) :
  (byte_val c =? 95) = true \/ strconv.digit_val (byte_val c) <> None ->
  plain_byte c = true.
Proof.
  destruct c as [[] [] [] [] [] [] [] []]; vm_compute;
    intros [Hc | Hc];
    first [reflexivity | discriminate Hc | exfalso; apply Hc; reflexivity].
Qed.

Lemma prefix_letter_plain (c : ascii) :
  strconv.is_prefix_letter c "b" = true
  \/ strconv.is_prefix_letter c "o" = true
  \/ strconv.is_prefix_letter c "x" = true ->
  plain_byte c = true.
Proof.
  destruct c as [[] [] [] [] [] [] [] []]; vm_compute;
    intros [Hc | [Hc | Hc]]; first [reflexivity | discriminate Hc].
Qed.

Lemma digits_plain (base : Z) (s : string) :
  forall n u x, strconv.digits base s n u = inr x -> plain s = true.
Proof.
  induction s as [|c r IH]; intros n u x Hd; [reflexivity|].
  cbn [strconv.digits] in Hd. cbn [plain].
  destruct (byte_val c =? 95) eqn:Hus.
  - rewrite (digit_plain c (or_introl Hus)). exact (IH _ _ _ Hd).
  - destruct (strconv.digit_val (byte_val c)) as [d|] eqn:Hdv; [|discriminate].
    rewrite (digit_plain c) by (right; congruence).
    destruct (base <=? d); [discriminate|].
    destruct (strconv.maxUint64 / base + 1 <=? n); [discriminate|].
    destruct (_ || _); [discriminate|]. exact (IH _ _ _ Hd).
Qed.

(** What [ParseUint] accepts is plain printable ASCII. *)
Lemma ParseUint_plain (s : string) (v : Z) :
  strconv.ParseUint s = (v, None) -> plain s = true.
Proof.
  unfold strconv.ParseUint. destruct s as [|c r]; [discriminate|].
  destruct (strconv.detect_base (String c r)) as [base s'] eqn:Hb.
  destruct (strconv.digits base s' 0 false) as [[? ?]|x] eqn:Hd; [discriminate|].
  intros _. apply digits_plain in Hd.
  unfold strconv.detect_base in Hb.
  destruct (Ascii.eqb c "0") eqn:Hc0.
  - apply Ascii.eqb_eq in Hc0. subst c.
    destruct r as [|c1 r1]; [reflexivity|].
    destruct (_ && strconv.is_prefix_letter c1 "b") eqn:H2.
    { injection Hb as _ <-. apply andb_true_iff in H2 as [_ H2].
      cbn [plain]. rewrite (prefix_letter_plain _ (or_introl H2)), Hd. reflexivity. }
    destruct (_ && strconv.is_prefix_letter c1 "o") eqn:H8.
    { injection Hb as _ <-. apply andb_true_iff in H8 as [_ H8].
      cbn [plain]. rewrite (prefix_letter_plain _ (or_intror (or_introl H8))), Hd. reflexivity. }
    destruct (_ && strconv.is_prefix_letter c1 "x") eqn:H16.
    { injection Hb as _ <-. apply andb_true_iff in H16 as [_ H16].
      cbn [plain]. rewrite (prefix_letter_plain _ (or_intror (or_intror H16))), Hd. reflexivity. }
    injection Hb as _ <-. cbn [plain] in Hd |- *. rewrite Hd. reflexivity.
  - assert (Hs' : s' = String c r).
    { destruct c as [[] [] [] [] [] [] [] []]; try discriminate Hc0;
        injection Hb as _ <-; reflexivity. }
    rewrite <- Hs'. exact Hd.
Qed.

Lemma digits_early_value (base : Z) (s : string) :
  forall n u v e, strconv.digits base s n u = inl (v, e) -> v = 0 \/ v = 2 ^ 64 - 1.
Proof.
  induction s as [|c r IH]; intros n u v e Hd; cbn [strconv.digits] in Hd; [discriminate|].
  destruct (byte_val c =? 95); [exact (IH _ _ _ _ Hd)|].
  destruct (strconv.digit_val (byte_val c)) as [d|]; [|injection Hd as <- _; auto].
  destruct (base <=? d); [injection Hd as <- _; auto|].
  destruct (strconv.maxUint64 / base + 1 <=? n); [injection Hd as <- _; auto|].
  destruct (_ || _); [injection Hd as <- _; auto|]. exact (IH _ _ _ _ Hd).
Qed.

(** Error or not, the value [ParseUint] returns is an unsigned 64-bit one. *)
Lemma ParseUint_value_range (s : string) : is_uint64 (fst (strconv.ParseUint s)).
Proof.
  unfold is_uint64.
  destruct (strconv.ParseUint s) as [v [e|]] eqn:Hp; cbn [fst];
    [|exact (ParseUint_range _ _ Hp)].
  unfold strconv.ParseUint in Hp. destruct s as [|c r]; [injection Hp as <- _; lia|].
  destruct (strconv.detect_base (String c r)) as [base s'].
  destruct (strconv.digits base s' 0 false) as [[v' e']|[n u]] eqn:Hd.
  - injection Hp as <- _. destruct (digits_early_value _ _ _ _ _ _ Hd) as [-> | ->]; lia.
  - destruct (u && negb (strconv.underscoreOK (String c r))); [|discriminate].
    injection Hp as <- _. lia.
Qed.

Section TrackerFurther.

Context `{HeaderNames}.

Implicit Types (st : State) (raw : string) (t : time.Time)
  (hdrs : LambdaInvokeEventHeaders.t) (m : gmap string string).

(** The whole state after a start that finds no embedded headers. *)
Lemma start_plain_state t raw hdrs st :
  Headers (convertRawPayload raw) = None ->
  startExecutionSpan t raw hdrs st
  = let base :=
      {| startTime := t;
         traceID := if InferredSpansEnabled st then pb.TraceID (Span (inferredSpan st))
                    else first_draw st;
         spanID := second_draw st;
         parentID := if InferredSpansEnabled st then pb.SpanID (Span (inferredSpan st))
                     else 0;
         samplingPriority := samplingPriority (currentExecutionInfo st);
         requestPayload := raw |} in
    {| currentExecutionInfo :=
         if negb (String.eqb (LambdaInvokeEventHeaders.TraceID hdrs) "") then
           set_parentID (fst (strconv.ParseUint (LambdaInvokeEventHeaders.ParentID hdrs)))
             (set_traceID (fst (strconv.ParseUint (LambdaInvokeEventHeaders.TraceID hdrs)))
                base)
         else base;
       InferredSpansEnabled := InferredSpansEnabled st;
       inferredSpan := inferredSpan st;
       Random := snd (rand.Uint64 (snd (rand.Uint64 (Random st))));
       Getenv := Getenv st;
       GetBool := GetBool st |}.
Proof.
  intros Hm. unfold startExecutionSpan. rewrite Hm.
  unfold Random_Uint64, rand.Uint64, first_draw, second_draw. cbn.
  destruct (InferredSpansEnabled st); cbn;
    destruct (String.eqb (LambdaInvokeEventHeaders.TraceID hdrs) ""); cbn;
    try reflexivity;
    destruct (strconv.ParseUint (LambdaInvokeEventHeaders.TraceID hdrs));
    destruct (strconv.ParseUint (LambdaInvokeEventHeaders.ParentID hdrs));
    reflexivity.
Qed.

(** X4.  From the payload to the trace ID.  With inferred spans disabled,
    a trace-ID header of plain name, embedded with a value that [ParseUint]
    accepts in any of its bases, inside text without opening brace before
    and closing brace after, makes that value the trace ID; the parent ID,
    whose header is absent, is 0. *)
Theorem X4_trace_header_end_to_end t (pre suf v : string) (n : Z) hdrs st :
  plain TraceIDHeader = true ->
  ParentIDHeader <> TraceIDHeader ->
  strconv.ParseUint v = (n, None) ->
  has_byte 123 pre = false -> has_byte 125 suf = false ->
  InferredSpansEnabled st = false ->
  let st' :=
    startExecutionSpan t (pre ++ payload_with TraceIDHeader v ++ suf)%string hdrs st in
  TraceID st' = n /\ parentID (currentExecutionInfo st') = 0 /\ is_uint64 (TraceID st').
Proof.
  intros Hname Hdiff Hv Hpre Hsuf Hoff st'. subst st'.
  assert (Hm : Headers (convertRawPayload
                          (pre ++ payload_with TraceIDHeader v ++ suf)%string)
               = Some {[ TraceIDHeader := v ]}).
  { pose proof (ParseUint_plain _ _ Hv) as Hplain.
    rewrite <- convertRawPayload_greedy.
    rewrite (FindString_greedy_payload_with _ _ _ _ Hname Hplain Hpre Hsuf).
    rewrite (Unmarshal_payload_with _ _ Hname Hplain). reflexivity. }
  unfold TraceID.
  rewrite (start_embedded_traceID _ _ _ _ _ Hm), (start_embedded_parentID _ _ _ _ _ Hm).
  unfold index. rewrite lookup_singleton_eq, lookup_singleton_ne by congruence.
  cbn. rewrite Hv, Hoff.
  split; [reflexivity|]. split; [reflexivity|]. exact (ParseUint_range _ _ Hv).
Qed.

(** X5.  Embedded headers shadow the direct ones.  Once the payload decodes
    to a header mapping, be it empty, the direct-invocation headers have no
    influence on the state the start leaves. *)
Theorem X5_embedded_headers_shadow_direct t raw hdrs hdrs' st m :
  Headers (convertRawPayload raw) = Some m ->
  startExecutionSpan t raw hdrs st = startExecutionSpan t raw hdrs' st.
Proof. intros Hm. unfold startExecutionSpan. rewrite Hm. reflexivity. Qed.

(** X6.  Missing keys.  With inferred spans disabled, an embedded header
    mapping that has none of the three headers leaves the defaults: the
    first random draw as trace ID, the second as span ID, parent ID 0, the
    sampling priority as it was. *)
Theorem X6_missing_headers_leave_defaults t raw hdrs st m :
  Headers (convertRawPayload raw) = Some m ->
  m !! TraceIDHeader = None ->
  m !! ParentIDHeader = None ->
  m !! SamplingPriorityHeader = None ->
  InferredSpansEnabled st = false ->
  currentExecutionInfo (startExecutionSpan t raw hdrs st)
  = {| startTime := t; traceID := first_draw st; spanID := second_draw st;
       parentID := 0;
       samplingPriority := samplingPriority (currentExecutionInfo st);
       requestPayload := raw |}.
Proof.
  intros Hm Ht Hp Hs Hoff. unfold startExecutionSpan. rewrite Hm.
  unfold index. rewrite Ht, Hp, Hs. cbn [from_option id].
  change (strconv.ParseUint "") with (0, Some strconv.ErrSyntax).
  unfold Random_Uint64, rand.Uint64, first_draw, second_draw. cbn.
  rewrite Hoff. reflexivity.
Qed.

(** X7.  No context at all.  With inferred spans disabled, a payload
    without opening brace or without closing brace and an empty direct
    trace ID leave the defaults, whatever the direct parent ID. *)
Theorem X7_no_context_leaves_defaults t raw hdrs st :
  has_byte 123 raw = false \/ has_byte 125 raw = false ->
  LambdaInvokeEventHeaders.TraceID hdrs = "" ->
  InferredSpansEnabled st = false ->
  currentExecutionInfo (startExecutionSpan t raw hdrs st)
  = {| startTime := t; traceID := first_draw st; spanID := second_draw st;
       parentID := 0;
       samplingPriority := samplingPriority (currentExecutionInfo st);
       requestPayload := raw |}.
Proof.
  intros Hraw Hd Hoff.
  assert (Hm : Headers (convertRawPayload raw) = None).
  { unfold convertRawPayload.
    destruct Hraw as [Hraw | Hraw];
      [rewrite (FindString_no_open _ Hraw) | rewrite (FindString_no_close _ Hraw)];
      reflexivity. }
  rewrite (start_plain_state _ _ _ _ Hm). cbn. rewrite Hd, Hoff. reflexivity.
Qed.

(** X8.  Direct-invocation headers that parse.  Without embedded headers,
    a non-empty direct trace ID and a direct parent ID that both parse
    become the trace ID and the parent ID, in inferred-span mode too, where
    they replace the identifiers adopted from the inferred span; the
    inferred span itself is left as it was. *)
Theorem X8_direct_headers_applied t raw hdrs st (v p : Z) :
  Headers (convertRawPayload raw) = None ->
  LambdaInvokeEventHeaders.TraceID hdrs <> "" ->
  strconv.ParseUint (LambdaInvokeEventHeaders.TraceID hdrs) = (v, None) ->
  strconv.ParseUint (LambdaInvokeEventHeaders.ParentID hdrs) = (p, None) ->
  let st' := startExecutionSpan t raw hdrs st in
  TraceID st' = v
  /\ parentID (currentExecutionInfo st') = p
  /\ inferredSpan st' = inferredSpan st.
Proof.
  intros Hm Hne Hv Hp st'. subst st'. rewrite (start_plain_state _ _ _ _ Hm).
  apply String.eqb_neq in Hne. cbn. rewrite Hne, Hv, Hp. cbn. auto.
Qed.


(** The whole state after a start that finds embedded headers. *)
Lemma start_embedded_state t raw hdrs st m :
  Headers (convertRawPayload raw) = Some m ->
  startExecutionSpan t raw hdrs st
  = let tr := strconv.ParseUint (index m TraceIDHeader) in
    let pa := strconv.ParseUint (index m ParentIDHeader) in
    let sp := strconv.ParseUint (index m SamplingPriorityHeader) in
    let on := InferredSpansEnabled st in
    {| currentExecutionInfo :=
         {| startTime := t;
            traceID :=
              when (snd tr) (fun _ => fst tr)
                (if on then pb.TraceID (Span (inferredSpan st)) else first_draw st);
            spanID := second_draw st;
            parentID :=
              if on then pb.SpanID (Span (inferredSpan st))
              else when (snd pa) (fun _ => fst pa) 0;
            samplingPriority :=
              when (snd sp) (fun _ => Some (fst sp))
                (samplingPriority (currentExecutionInfo st));
            requestPayload := raw |};
       InferredSpansEnabled := on;
       inferredSpan :=
         if on then
           when (snd sp) (set_SamplingPriority (Some (fst sp)))
             (when (snd pa) (set_Span (pb.set_ParentID (fst pa)))
                (when (snd tr) (set_Span (pb.set_TraceID (fst tr))) (inferredSpan st)))
         else inferredSpan st;
       Random := snd (rand.Uint64 (snd (rand.Uint64 (Random st))));
       Getenv := Getenv st;
       GetBool := GetBool st |}.
Proof.
  intros Hm. unfold startExecutionSpan. rewrite Hm. cbv zeta.
  destruct st as [cur on inf rnd env cfg].
  destruct (strconv.ParseUint (index m TraceIDHeader)) as [v [e1|]];
    destruct (strconv.ParseUint (index m ParentIDHeader)) as [p [e2|]];
    destruct (strconv.ParseUint (index m SamplingPriorityHeader)) as [s [e3|]];
    destruct on; reflexivity.
Qed.

(** The environment, the configuration and the random source after a
    start. *)
Lemma start_environment t raw hdrs st :
  let st' := startExecutionSpan t raw hdrs st in
  Getenv st' = Getenv st
  /\ GetBool st' = GetBool st
  /\ Random st' = snd (rand.Uint64 (snd (rand.Uint64 (Random st)))).
Proof.
  cbv zeta. destruct (Headers (convertRawPayload raw)) as [m|] eqn:Hm;
    [rewrite (start_embedded_state _ _ _ _ _ Hm)
    | rewrite (start_plain_state _ _ _ _ Hm)];
    cbv zeta; repeat split; reflexivity.
Qed.

(** X9.  Inferred-span mode keeps the two spans together.  With inferred
    spans enabled, after a start on embedded headers, or on no headers at
    all, the execution span has the trace ID of the inferred span and the
    inferred span's span ID as parent ID; the span ID of the inferred span
    is never written. *)
Theorem X9_inferred_span_is_parent t raw hdrs st :
  InferredSpansEnabled st = true ->
  (exists m, Headers (convertRawPayload raw) = Some m)
  \/ (Headers (convertRawPayload raw) = None
      /\ LambdaInvokeEventHeaders.TraceID hdrs = "") ->
  let st' := startExecutionSpan t raw hdrs st in
  TraceID st' = pb.TraceID (Span (inferredSpan st'))
  /\ parentID (currentExecutionInfo st') = pb.SpanID (Span (inferredSpan st'))
  /\ pb.SpanID (Span (inferredSpan st')) = pb.SpanID (Span (inferredSpan st)).
Proof.
  intros Hon Hcase st'. subst st'. unfold TraceID.
  destruct Hcase as [[m Hm] | [Hm Hd]].
  - rewrite (start_embedded_state _ _ _ _ _ Hm). cbv zeta. rewrite Hon.
    destruct (strconv.ParseUint (index m TraceIDHeader)) as [v [e1|]];
      destruct (strconv.ParseUint (index m ParentIDHeader)) as [p [e2|]];
      destruct (strconv.ParseUint (index m SamplingPriorityHeader)) as [s [e3|]];
      repeat split; reflexivity.
  - rewrite (start_plain_state _ _ _ _ Hm). cbv zeta. rewrite Hd, Hon.
    repeat split; reflexivity.
Qed.

(** X10.  Inferred-span mode hands the caller's context to the inferred
    span.  With inferred spans enabled and embedded headers, a parent-ID
    header that parses becomes the parent ID of the inferred span, not of
    the execution span; a trace-ID header that parses becomes the trace ID
    of both; a sampling priority that parses is recorded for both.  A
    header that does not parse leaves the inferred span's field as it
    was. *)
Theorem X10_inferred_span_takes_caller_context t raw hdrs st m :
  InferredSpansEnabled st = true ->
  Headers (convertRawPayload raw) = Some m ->
  let st' := startExecutionSpan t raw hdrs st in
  pb.ParentID (Span (inferredSpan st'))
    = match strconv.ParseUint (index m ParentIDHeader) with
      | (p, None) => p
      | (_, Some _) => pb.ParentID (Span (inferredSpan st))
      end
  /\ pb.TraceID (Span (inferredSpan st'))
    = match strconv.ParseUint (index m TraceIDHeader) with
      | (v, None) => v
      | (_, Some _) => pb.TraceID (Span (inferredSpan st))
      end
  /\ SamplingPriority (inferredSpan st')
    = match strconv.ParseUint (index m SamplingPriorityHeader) with
      | (s, None) => Some s
      | (_, Some _) => SamplingPriority (inferredSpan st)
      end
  /\ (forall s, strconv.ParseUint (index m SamplingPriorityHeader) = (s, None) ->
      samplingPriority (currentExecutionInfo st') = SamplingPriority (inferredSpan st')).
Proof.
  intros Hon Hm st'. subst st'.
  rewrite (start_embedded_state _ _ _ _ _ Hm). cbv zeta. rewrite Hon.
  destruct (strconv.ParseUint (index m TraceIDHeader)) as [v [e1|]];
    destruct (strconv.ParseUint (index m ParentIDHeader)) as [p [e2|]];
    destruct (strconv.ParseUint (index m SamplingPriorityHeader)) as [s [e3|]];
    repeat split; try reflexivity; intros s' Hs; discriminate Hs.
Qed.

(** X11.  What a start never touches.  The inferred-span switch, the
    environment and the configuration are left as they were; the random
    source has handed out exactly two values; with inferred spans disabled
    the inferred span is left as it was. *)
Theorem X11_start_frame t raw hdrs st :
  let st' := startExecutionSpan t raw hdrs st in
  InferredSpansEnabled st' = InferredSpansEnabled st
  /\ Getenv st' = Getenv st
  /\ GetBool st' = GetBool st
  /\ rand.outputs (Random st') = rand.outputs (Random st)
  /\ rand.drawn (Random st') = S (S (rand.drawn (Random st)))
  /\ (InferredSpansEnabled st = false -> inferredSpan st' = inferredSpan st).
Proof.
  cbv zeta. destruct (start_environment t raw hdrs st) as (Henv & Hcfg & Hrand).
  split; [apply start_InferredSpansEnabled|].
  split; [exact Henv|]. split; [exact Hcfg|]. rewrite Hrand.
  split; [reflexivity|]. split; [reflexivity|].
  intros Hoff. destruct (Headers (convertRawPayload raw)) as [m|] eqn:Hm.
  - rewrite (start_embedded_state _ _ _ _ _ Hm). cbv zeta.
    cbn [inferredSpan]. rewrite Hoff. reflexivity.
  - rewrite (start_plain_state _ _ _ _ Hm). reflexivity.
Qed.

(** X12.  Successive invocations never share a random value.  Of two
    starts in a row, the first gets the next two values of the source and
    the second the two after them: its span ID is the fourth. *)
Theorem X12_successive_starts_use_fresh_draws t1 raw1 hdrs1 t2 raw2 hdrs2 st :
  let st1 := startExecutionSpan t1 raw1 hdrs1 st in
  let st2 := startExecutionSpan t2 raw2 hdrs2 st1 in
  let n := rand.drawn (Random st) in
  SpanID st1 = uint64 (rand.outputs (Random st) (S n))
  /\ first_draw st1 = uint64 (rand.outputs (Random st) (S (S n)))
  /\ SpanID st2 = uint64 (rand.outputs (Random st) (S (S (S n)))).
Proof.
  cbv zeta. unfold SpanID. rewrite !start_spanID.
  destruct (start_environment t1 raw1 hdrs1 st) as (_ & _ & Hrand).
  unfold first_draw, second_draw. rewrite Hrand.
  repeat split; reflexivity.
Qed.

(** X13.  Identifiers stay within 64 bits.  After a start the trace ID, the
    span ID and the parent ID are unsigned 64-bit values, provided that, in
    inferred-span mode, the identifiers of the inferred span are. *)
Theorem X13_identifiers_are_uint64 t raw hdrs st :
  (InferredSpansEnabled st = true ->
   is_uint64 (pb.TraceID (Span (inferredSpan st)))
   /\ is_uint64 (pb.SpanID (Span (inferredSpan st)))) ->
  let st' := startExecutionSpan t raw hdrs st in
  is_uint64 (TraceID st') /\ is_uint64 (SpanID st')
  /\ is_uint64 (parentID (currentExecutionInfo st')).
Proof.
  intros Hinf st'. subst st'. unfold TraceID, SpanID.
  assert (H0 : is_uint64 0) by (unfold is_uint64; lia).
  assert (Hd : forall z, is_uint64 (uint64 z)) by (intros z; apply uint64_range).
  destruct (Headers (convertRawPayload raw)) as [m|] eqn:Hm.
  - rewrite (start_embedded_traceID _ _ _ _ _ Hm), (start_embedded_parentID _ _ _ _ _ Hm),
      start_spanID.
    pose proof (ParseUint_value_range (index m TraceIDHeader)) as Ht.
    pose proof (ParseUint_value_range (index m ParentIDHeader)) as Hp.
    destruct (strconv.ParseUint (index m TraceIDHeader)) as [v [e|]];
      destruct (strconv.ParseUint (index m ParentIDHeader)) as [p [e'|]];
      cbn [fst] in Ht, Hp;
      unfold first_draw, second_draw, rand.Uint64; cbn [fst snd];
      destruct (InferredSpansEnabled st);
      try (destruct (Hinf eq_refl) as [Hit His]); auto.
  - rewrite (start_plain_state _ _ _ _ Hm). cbn.
    pose proof (ParseUint_value_range (LambdaInvokeEventHeaders.TraceID hdrs)) as Ht.
    pose proof (ParseUint_value_range (LambdaInvokeEventHeaders.ParentID hdrs)) as Hp.
    unfold first_draw, second_draw, rand.Uint64; cbn [fst snd].
    destruct (String.eqb (LambdaInvokeEventHeaders.TraceID hdrs) ""); cbn;
      destruct (InferredSpansEnabled st);
      try (destruct (Hinf eq_refl) as [Hit His]); auto.
Qed.

End TrackerFurther.

(** ** [endExecutionSpan]: what the span carries *)

(** X14.  The fixed part of the span.  Whatever the state and the
    arguments, the span is named aws.lambda for service and name, typed
    serverless, its resource is the value of AWS_LAMBDA_FUNCTION_NAME (the
    empty string when unset), and its metadata maps request_id to the
    request ID, with or without payload capture. *)
Theorem X14_span_fixed_fields (requestID : string) (endTime : time.Time)
    (isError : bool) (responsePayload : string) (st : State) :
  let s := executionSpan requestID endTime isError responsePayload st in
  pb.Service s = "aws.lambda"
  /\ pb.Name s = "aws.lambda"
  /\ pb.Type_ s = "serverless"
  /\ pb.Resource s = Getenv st "AWS_LAMBDA_FUNCTION_NAME"
  /\ pb.Meta s !! "request_id" = Some requestID.
Proof.
  cbv zeta. unfold executionSpan.
  destruct (GetBool st "capture_lambda_payload"), isError; repeat split; reflexivity.
Qed.

(** X15.  Payload capture round trip.  With capture enabled, the span
    built after a start carries the raw payload of that start under
    function.request and the response payload under function.response,
    next to request_id and nothing else. *)
Theorem X15_capture_round_trip `{HeaderNames} (t : time.Time) (raw : string)
    (hdrs : LambdaInvokeEventHeaders.t) (st : State)
    (requestID : string) (endTime : time.Time) (isError : bool)
    (responsePayload : string) :
  GetBool st "capture_lambda_payload" = true ->
  let s :=
    executionSpan requestID endTime isError responsePayload
      (startExecutionSpan t raw hdrs st) in
  pb.Meta s !! "function.request" = Some raw
  /\ pb.Meta s !! "function.response" = Some responsePayload
  /\ pb.Meta s !! "request_id" = Some requestID
  /\ dom (pb.Meta s)
     = ({[ "request_id"; "function.request"; "function.response" ]} : gset string).
Proof.
  intros Hon. cbv zeta.
  destruct (start_environment t raw hdrs st) as (_ & Hcfg & _).
  unfold executionSpan. rewrite Hcfg, Hon, start_requestPayload.
  destruct isError; cbn [pb.Meta pb.set_Meta pb.set_Error];
    (split; [reflexivity|]; split; [reflexivity|]; split; [reflexivity|];
     rewrite !dom_insert_L, dom_singleton_L; set_solver).
Qed.

(** X16.  From the headers to the sink.  With inferred spans disabled and
    embedded headers whose trace ID, parent ID and sampling priority all
    parse, the one payload handed to the callback at the end holds one
    chunk, of the parsed priority converted to [int32], with one span, of
    the parsed trace ID and parent ID, the second random draw as span ID
    and the start time as start. *)
Theorem X16_headers_reach_the_sink `{HeaderNames} {Sink : Type}
    (processTrace : api.Payload -> Sink -> Sink) (sink : Sink)
    (t : time.Time) (raw : string) (hdrs : LambdaInvokeEventHeaders.t) (st : State)
    (m : gmap string string) (v p s : Z)
    (requestID : string) (endTime : time.Time) (isError : bool)
    (responsePayload : string) :
  Headers (convertRawPayload raw) = Some m ->
  strconv.ParseUint (index m TraceIDHeader) = (v, None) ->
  strconv.ParseUint (index m ParentIDHeader) = (p, None) ->
  strconv.ParseUint (index m SamplingPriorityHeader) = (s, None) ->
  InferredSpansEnabled st = false ->
  exists c sp,
    endExecutionSpan processTrace requestID endTime isError responsePayload
      (startExecutionSpan t raw hdrs st) sink
    = processTrace {| api.TracerPayload := {| pb.Chunks := [c] |} |} sink
    /\ pb.Spans c = [sp]
    /\ pb.Priority c = int32 s
    /\ pb.TraceID sp = v
    /\ pb.ParentID sp = p
    /\ pb.SpanID sp = second_draw st
    /\ pb.Start sp = time.UnixNano t.
Proof.
  intros Hm Hv Hp Hs Hoff.
  set (st' := startExecutionSpan t raw hdrs st).
  exists (traceChunk requestID endTime isError responsePayload st'),
         (executionSpan requestID endTime isError responsePayload st').
  destruct (endExecutionSpan_emits processTrace requestID endTime isError
              responsePayload st' sink) as [Hcall Hspans].
  destruct (executionSpan_ids requestID endTime isError responsePayload st')
    as (Htr & Hsp & Hpa & Hst & _).
  split; [exact Hcall|]. split; [exact Hspans|].
  rewrite traceChunk_Priority, Htr, Hsp, Hpa, Hst. subst st'.
  rewrite (start_embedded_samplingPriority _ _ _ _ _ Hm),
          (start_embedded_traceID _ _ _ _ _ Hm),
          (start_embedded_parentID _ _ _ _ _ Hm),
          start_spanID, start_startTime, Hv, Hp, Hs, Hoff.
  repeat split; reflexivity.
Qed.

(** X17.  No priority resolved.  When the slot holds no sampling priority
    and the start finds no embedded headers, or embedded headers whose
    sampling priority does not parse, the chunk is sent with priority 0,
    as it is when the header says 0. *)
Theorem X17_unresolved_priority_is_zero `{HeaderNames}
    (t : time.Time) (raw : string) (hdrs : LambdaInvokeEventHeaders.t) (st : State)
    (requestID : string) (endTime : time.Time) (isError : bool)
    (responsePayload : string) :
  samplingPriority (currentExecutionInfo st) = None ->
  Headers (convertRawPayload raw) = None
  \/ (exists m e z,
        Headers (convertRawPayload raw) = Some m
        /\ (strconv.ParseUint (index m SamplingPriorityHeader) = (z, Some e)
            \/ strconv.ParseUint (index m SamplingPriorityHeader) = (0, None))) ->
  pb.Priority (traceChunk requestID endTime isError responsePayload
                 (startExecutionSpan t raw hdrs st)) = 0.
Proof.
  intros Hnone Hcase. rewrite traceChunk_Priority.
  destruct Hcase as [Hm | (m & e & z & Hm & [Hs | Hs])].
  - rewrite (start_plain_samplingPriority _ _ _ _ Hm), Hnone. reflexivity.
  - rewrite (start_embedded_samplingPriority _ _ _ _ _ Hm), Hs, Hnone. reflexivity.
  - rewrite (start_embedded_samplingPriority _ _ _ _ _ Hm), Hs. reflexivity.
Qed.

(** ** The lifecycle hooks *)

Section LifecycleFurther.

Context `{HeaderNames} {Sink InferredPkg ExecutionContext : Type}.
Variable Create : string -> ExecutionContext -> InferredPkg -> InferredPkg.
Variable Complete :
  (api.Payload -> Sink -> Sink) -> time.Time -> bool -> string ->
  InferredPkg -> Sink -> InferredPkg * Sink.

Implicit Types (lp : LifecycleProcessor Sink ExecutionContext)
  (w : World Sink InferredPkg) (sd : InvocationStartDetails)
  (ed : InvocationEndDetails) (ctx : ExecutionContext).

(** The world after the start hook, component by component. *)
Lemma OnInvokeStart_world lp sd ctx w :
  OnInvokeStart Create lp sd ctx w
  = {| pkg := if DetectLambdaLibrary lp tt then pkg w
              else startExecutionSpan (StartTime sd) (InvokeEventRawPayload sd)
                     (InvokeEventHeaders sd) (pkg w);
       traceSink := traceSink w;
       demux := demux w;
       inferredPkg :=
         if tracing_flags (pkg w)
         then Create (InvokeEventRawPayload sd) (ExecutionContext_ lp) (inferredPkg w)
         else inferredPkg w |}.
Proof.
  unfold OnInvokeStart, tracing_flags. destruct w as [st sink dm inf].
  destruct (DetectLambdaLibrary lp tt); cbn [negb on_pkg pkg].
  - destruct (_ && _); reflexivity.
  - destruct (start_environment (StartTime sd) (InvokeEventRawPayload sd)
                (InvokeEventHeaders sd) st) as (-> & _).
    destruct (_ && _); reflexivity.
Qed.

(** The world after the end hook, component by component. *)
Lemma OnInvokeEnd_world lp ed w :
  OnInvokeEnd Complete lp ed w
  = let sent :=
      if DetectLambdaLibrary lp tt then traceSink w
      else endExecutionSpan (ProcessTrace lp) (RequestID ed) (EndTime ed) (IsError ed)
             (ResponseRawPayload ed) (pkg w) (traceSink w) in
    let done :=
      if tracing_flags (pkg w)
      then Complete (ProcessTrace lp) (EndTime ed) (IsError ed) (RequestID ed)
             (inferredPkg w) sent
      else (inferredPkg w, sent) in
    {| pkg := pkg w;
       traceSink := snd done;
       demux :=
         if IsError ed
         then serverlessMetrics.SendErrorsEnhancedMetric
                (serverlessLog.Tags.Tags (ExtraTags lp)) (EndTime ed) (demux w)
         else demux w;
       inferredPkg := fst done |}.
Proof.
  unfold OnInvokeEnd, tracing_flags. destruct w as [st sink dm inf]. cbv zeta.
  destruct (DetectLambdaLibrary lp tt), (IsError ed);
    cbn [negb on_traceSink on_demux pkg traceSink demux inferredPkg];
    destruct (_ && _); try reflexivity;
    destruct (Complete _ _ _ _ _ _); reflexivity.
Qed.


(** X19.  The end hook, whatever the library detection.  It never writes
    the package state: the slot filled at the start is still there after
    the end.  The demultiplexer receives the error metric exactly when
    [IsError] is set. *)
Theorem X19_OnInvokeEnd_state_and_metric lp ed w :
  let w2 := OnInvokeEnd Complete lp ed w in
  pkg w2 = pkg w
  /\ demux w2
     = (if IsError ed
        then serverlessMetrics.SendErrorsEnhancedMetric
               (serverlessLog.Tags.Tags (ExtraTags lp)) (EndTime ed) (demux w)
        else demux w).
Proof.
  cbv zeta. rewrite OnInvokeEnd_world. cbv zeta.
  cbn [pkg demux]. split; reflexivity.
Qed.

(** X20.  Order at the end.  Without the library, the execution span is
    handed to the sink first; when both tracing flags read true, the
    inferred span is completed after it, on the sink that already holds
    the execution span, with the same end time, error flag and request
    ID.  With a flag off the inferred-span package is not called. *)
Theorem X20_OnInvokeEnd_span_then_inferred lp ed w :
  DetectLambdaLibrary lp tt = false ->
  let w2 := OnInvokeEnd Complete lp ed w in
  let sent :=
    endExecutionSpan (ProcessTrace lp) (RequestID ed) (EndTime ed) (IsError ed)
      (ResponseRawPayload ed) (pkg w) (traceSink w) in
  (tracing_flags (pkg w) = true ->
   (inferredPkg w2, traceSink w2)
   = Complete (ProcessTrace lp) (EndTime ed) (IsError ed) (RequestID ed)
       (inferredPkg w) sent)
  /\ (tracing_flags (pkg w) = false ->
      inferredPkg w2 = inferredPkg w /\ traceSink w2 = sent).
Proof.
  intros Hlib. cbv zeta. rewrite OnInvokeEnd_world. cbv zeta. rewrite Hlib.
  cbn [traceSink inferredPkg]. split; intros ->.
  - destruct (Complete _ _ _ _ _ _); reflexivity.
  - split; reflexivity.
Qed.

(** X21.  One invocation, one span.  Without the library and with a
    tracing flag off, the two hooks in a row hand exactly one payload to
    the sink.  Its one span starts at the start time, lasts the [int64]
    difference of the two [UnixNano] readings, has the second random draw
    as span ID, the error indicator of [IsError] and the request ID as
    metadata. *)
Theorem X21_one_invocation_one_span lp sd ed ctx w :
  DetectLambdaLibrary lp tt = false ->
  tracing_flags (pkg w) = false ->
  let w2 := OnInvokeEnd Complete lp ed (OnInvokeStart Create lp sd ctx w) in
  exists c sp,
    traceSink w2
    = ProcessTrace lp {| api.TracerPayload := {| pb.Chunks := [c] |} |} (traceSink w)
    /\ pb.Spans c = [sp]
    /\ pb.Start sp = time.UnixNano (StartTime sd)
    /\ pb.Duration sp
       = int64 (time.UnixNano (EndTime ed) - time.UnixNano (StartTime sd))
    /\ pb.SpanID sp = second_draw (pkg w)
    /\ pb.Error sp = (if IsError ed then 1 else 0)
    /\ pb.Meta sp !! "request_id" = Some (RequestID ed)
    /\ inferredPkg w2 = inferredPkg w.
Proof.
  intros Hlib Hflags. cbv zeta.
  rewrite OnInvokeEnd_world, OnInvokeStart_world. cbv zeta.
  cbn [pkg traceSink demux inferredPkg]. rewrite Hlib, Hflags.
  set (st' := startExecutionSpan (StartTime sd) (InvokeEventRawPayload sd)
                (InvokeEventHeaders sd) (pkg w)).
  assert (Hflags' : tracing_flags st' = false).
  { unfold tracing_flags. subst st'.
    destruct (start_environment (StartTime sd) (InvokeEventRawPayload sd)
                (InvokeEventHeaders sd) (pkg w)) as (-> & _). exact Hflags. }
  rewrite Hflags'. cbn [fst snd].
  exists (traceChunk (RequestID ed) (EndTime ed) (IsError ed) (ResponseRawPayload ed) st'),
         (executionSpan (RequestID ed) (EndTime ed) (IsError ed)
            (ResponseRawPayload ed) st').
  destruct (endExecutionSpan_emits (ProcessTrace lp) (RequestID ed) (EndTime ed)
              (IsError ed) (ResponseRawPayload ed) st' (traceSink w))
    as [Hcall Hspans].
  destruct (executionSpan_ids (RequestID ed) (EndTime ed) (IsError ed)
              (ResponseRawPayload ed) st') as (_ & Hsp & _ & Hst & Hdur).
  split; [exact Hcall|]. split; [exact Hspans|].
  rewrite Hst, Hdur, Hsp. subst st'. rewrite start_startTime, start_spanID.
  repeat split; try reflexivity; unfold executionSpan;
    destruct (GetBool _ "capture_lambda_payload"), (IsError ed); reflexivity.
Qed.

End LifecycleFurther.

Lemma dot_star_close_line_end (line rest : string) :
  has_byte 125 line = false ->
  regexp.dot_star_close (line ++ String (ascii_of_N 10) rest)%string = None.
Proof.
  intros Hline. induction line as [|c r IH].
  - reflexivity.
  - cbn [has_byte] in Hline. apply orb_false_iff in Hline as [Hc Hr].
    rewrite append_cons. cbn [regexp.dot_star_close]. rewrite (IH Hr), Hc.
    destruct (byte_val c =? 10); reflexivity.
Qed.

(** X22.  An object spread over lines is not found.  An opening brace whose
    line holds no closing brace after it starts no match: when that line
    holds no further opening brace either, the payload decodes as the text
    after the line feed does.  A pretty-printed event therefore loses its
    outermost object. *)
Theorem X22_brace_closed_on_a_later_line_is_skipped (line rest : string) :
  has_byte 123 line = false ->
  has_byte 125 line = false ->
  convertRawPayload (String "{" (line ++ String (ascii_of_N 10) rest))%string
  = convertRawPayload rest.
Proof.
  intros Hopen Hclose. rewrite <- !convertRawPayload_greedy. f_equal.
  cbn [regexp.FindString_greedy regexp.match_at_greedy].
  change (byte_val "{" =? 123) with true. cbv iota.
  rewrite (dot_star_close_line_end _ _ Hclose). cbn [option_map].
  rewrite (FindString_greedy_skip _ _ Hopen). reflexivity.
Qed.

Lemma X22_witness :
  convertRawPayload
    (String "{" ("  " ++ String (ascii_of_N 10)
                   (quoted "headers" ++ ": {" ++ String (ascii_of_N 10) "}}")))%string
  = {| Headers := None |}.
Proof.
  rewrite (X22_brace_closed_on_a_later_line_is_skipped "  "
             (quoted "headers" ++ ": {" ++ String (ascii_of_N 10) "}}")%string
             eq_refl eq_refl).
  vm_compute. reflexivity.
Defined.

(** ** The further properties at concrete inputs *)

Lemma X4_witness :
  TraceID (startExecutionSpan (H := datadog_headers) (time.Unix 2 0)
             ("START " ++ payload_with "x-datadog-trace-id" "0x2A" ++ " END")%string
             no_headers used_state) = 42.
Proof.
  apply (@X4_trace_header_end_to_end datadog_headers (time.Unix 2 0) "START " " END"
           "0x2A" 42 no_headers used_state);
    first [reflexivity | discriminate].
Defined.

Lemma X5_witness :
  startExecutionSpan (H := datadog_headers) (time.Unix 2 0) payload_empty_headers
    (direct_headers "5" "6") used_state
  = startExecutionSpan (H := datadog_headers) (time.Unix 2 0) payload_empty_headers
      no_headers used_state.
Proof.
  apply (@X5_embedded_headers_shadow_direct datadog_headers (time.Unix 2 0)
           payload_empty_headers (direct_headers "5" "6") no_headers used_state ∅).
  vm_compute. reflexivity.
Defined.

Lemma X6_witness :
  currentExecutionInfo
    (startExecutionSpan (H := datadog_headers) (time.Unix 2 0) payload_empty_headers
       (direct_headers "5" "6") used_state)
  = {| startTime := time.Unix 2 0; traceID := 1000; spanID := 1001; parentID := 0;
       samplingPriority := Some 2; requestPayload := payload_empty_headers |}.
Proof.
  apply (@X6_missing_headers_leave_defaults datadog_headers (time.Unix 2 0)
           payload_empty_headers (direct_headers "5" "6") used_state ∅);
    vm_compute; reflexivity.
Defined.

Lemma X7_witness :
  currentExecutionInfo
    (startExecutionSpan (H := datadog_headers) (time.Unix 2 0) "plain text"
       (direct_headers "" "9") used_state)
  = {| startTime := time.Unix 2 0; traceID := 1000; spanID := 1001; parentID := 0;
       samplingPriority := Some 2; requestPayload := "plain text" |}.
Proof.
  apply (@X7_no_context_leaves_defaults datadog_headers (time.Unix 2 0) "plain text"
           (direct_headers "" "9") used_state); [left| |]; reflexivity.
Defined.

Lemma X8_witness :
  let st' :=
    startExecutionSpan (H := datadog_headers) (time.Unix 2 0) ""
      (direct_headers "5" "0x10") inferred_state in
  TraceID st' = 5
  /\ parentID (currentExecutionInfo st') = 16
  /\ inferredSpan st' = inferredSpan inferred_state.
Proof.
  apply (@X8_direct_headers_applied datadog_headers (time.Unix 2 0) ""
           (direct_headers "5" "0x10") inferred_state 5 16);
    first [reflexivity | discriminate].
Defined.

Lemma X9_witness :
  let st' :=
    startExecutionSpan (H := datadog_headers) (time.Unix 2 0) scenario_payload
      no_headers inferred_state in
  TraceID st' = pb.TraceID (Span (inferredSpan st'))
  /\ parentID (currentExecutionInfo st') = pb.SpanID (Span (inferredSpan st'))
  /\ pb.SpanID (Span (inferredSpan st')) = pb.SpanID (Span (inferredSpan inferred_state)).
Proof.
  apply (@X9_inferred_span_is_parent datadog_headers (time.Unix 2 0) scenario_payload
           no_headers inferred_state); [reflexivity|].
  left. exists {[ "x-datadog-trace-id" := "42" ]}. vm_compute. reflexivity.
Defined.

Lemma X10_witness :
  let st' :=
    startExecutionSpan (H := datadog_headers) (time.Unix 2 0)
      (payload_three "42" "7" "1") no_headers inferred_state in
  pb.ParentID (Span (inferredSpan st')) = 7
  /\ pb.TraceID (Span (inferredSpan st')) = 42
  /\ SamplingPriority (inferredSpan st') = Some 1
  /\ parentID (currentExecutionInfo st') = 88.
Proof.
  cbv zeta.
  assert (Hm : Headers (convertRawPayload (payload_three "42" "7" "1"))
               = Some (<["x-datadog-sampling-priority" := "1"]>
                         (<["x-datadog-parent-id" := "7"]>
                            {[ "x-datadog-trace-id" := "42" ]})))
    by (vm_compute; reflexivity).
  destruct (@X10_inferred_span_takes_caller_context datadog_headers (time.Unix 2 0)
              (payload_three "42" "7" "1") no_headers inferred_state _ eq_refl Hm)
    as (Hp & Ht & Hs & _).
  rewrite Hp, Ht, Hs. repeat split; vm_compute; reflexivity.
Defined.

Lemma X13_witness :
  let st' :=
    startExecutionSpan (H := datadog_headers) (time.Unix 2 0) ""
      (direct_headers "18446744073709551616" "no number") inferred_state in
  is_uint64 (TraceID st') /\ is_uint64 (SpanID st')
  /\ is_uint64 (parentID (currentExecutionInfo st')).
Proof.
  apply (@X13_identifiers_are_uint64 datadog_headers (time.Unix 2 0) ""
           (direct_headers "18446744073709551616" "no number") inferred_state).
  intros _. unfold is_uint64. vm_compute. repeat split; discriminate.
Defined.

Lemma X15_witness :
  pb.Meta
    (executionSpan "req" (time.Unix 3 0) false "the response"
       (startExecutionSpan (H := datadog_headers) (time.Unix 2 0) scenario_payload
          no_headers (set_capture true used_state)))
    !! "function.request" = Some scenario_payload.
Proof.
  apply (@X15_capture_round_trip datadog_headers (time.Unix 2 0) scenario_payload
           no_headers (set_capture true used_state) "req" (time.Unix 3 0) false
           "the response" eq_refl).
Defined.

Lemma X16_witness :
  exists c sp,
    endExecutionSpan (fun p sink => (sink ++ [p])%list) "req" (time.Unix 3 0) false ""
      (startExecutionSpan (H := datadog_headers) (time.Unix 2 0)
         (payload_three "42" "7" "1") no_headers fresh_state) []
    = [ {| api.TracerPayload := {| pb.Chunks := [c] |} |} ]
    /\ pb.Spans c = [sp]
    /\ pb.Priority c = int32 1
    /\ pb.TraceID sp = 42
    /\ pb.ParentID sp = 7
    /\ pb.SpanID sp = second_draw fresh_state
    /\ pb.Start sp = time.UnixNano (time.Unix 2 0).
Proof.
  assert (Hm : Headers (convertRawPayload (payload_three "42" "7" "1"))
               = Some (<["x-datadog-sampling-priority" := "1"]>
                         (<["x-datadog-parent-id" := "7"]>
                            {[ "x-datadog-trace-id" := "42" ]})))
    by (vm_compute; reflexivity).
  apply (@X16_headers_reach_the_sink datadog_headers (list api.Payload)
           (fun p sink => (sink ++ [p])%list) [] (time.Unix 2 0)
           (payload_three "42" "7" "1") no_headers fresh_state _ 42 7 1
           "req" (time.Unix 3 0) false "" Hm);
    vm_compute; reflexivity.
Defined.

Lemma X17_witness :
  pb.Priority
    (traceChunk "req" (time.Unix 3 0) false ""
       (startExecutionSpan (H := datadog_headers) (time.Unix 2 0) "" no_headers
          fresh_state)) = 0.
Proof.
  apply (@X17_unresolved_priority_is_zero datadog_headers (time.Unix 2 0) ""
           no_headers fresh_state "req" (time.Unix 3 0) false ""); [reflexivity|].
  left. reflexivity.
Defined.

Lemma X20_witness :
  traceSink (OnInvokeEnd no_complete (recording_processor false) failed_end quiet_world)
  = endExecutionSpan (ProcessTrace (recording_processor false)) "req" (time.Unix 3 0)
      true "" used_state [].
Proof.
  destruct (@X20_OnInvokeEnd_span_then_inferred (list api.Payload) unit unit
              no_complete (recording_processor false) failed_end quiet_world eq_refl)
    as [_ Hoff].
  destruct (Hoff eq_refl) as [_ Hsink]. exact Hsink.
Defined.

Lemma X21_witness :
  exists c sp,
    traceSink
      (OnInvokeEnd no_complete (recording_processor false) failed_end
         (OnInvokeStart (H := datadog_headers) no_create (recording_processor false)
            (start_details (time.Unix 2 0) scenario_payload) tt quiet_world))
    = [ {| api.TracerPayload := {| pb.Chunks := [c] |} |} ]
    /\ pb.Spans c = [sp]
    /\ pb.Start sp = 2000000000
    /\ pb.Duration sp = 1000000000
    /\ pb.Error sp = 1.
Proof.
  destruct (@X21_one_invocation_one_span datadog_headers (list api.Payload) unit unit
              no_create no_complete (recording_processor false)
              (start_details (time.Unix 2 0) scenario_payload) failed_end tt quiet_world
              eq_refl eq_refl)
    as (c & sp & Hsink & Hspans & Hstart & Hdur & _ & Herr & _).
  exists c, sp. rewrite Hsink, Hstart, Hdur, Herr.
  repeat split; first [exact Hspans | reflexivity].
Defined.
